(** * Milestone 1 application: credential store, reset tokens, document library

    A shallow embedding of the database helpers of [Milestone1.py]
    ([init_db], [add_user], [verify_user], [create_reset_token],
    [reset_password], [save_document], [list_documents], [delete_document])
    and of the "Save Document" button handler that calls [save_document].

    The SQLite file is modelled as a value of type [DB] that every helper
    receives and returns: each helper opens a connection, runs its statements,
    commits and closes, so a helper is a function from the stored state to the
    stored state and a result.  A table is the list of its rows in insertion
    order.  The values the helpers draw from their environment
    ([bcrypt.gensalt()], [secrets.token_hex(16)], [datetime.utcnow()]) are
    explicit arguments.  [bcrypt.hashpw] and [bcrypt.checkpw] are the two
    operations of an external library and are section variables. *)

From Stdlib Require Import List String Ascii ZArith NArith Bool Lia Sorted.
From Stdlib Require Import QArith DecimalString.
Import ListNotations.
Local Open Scope string_scope.
Local Open Scope Z_scope.

(** ** Python [str] operations used by the helpers

    A character is a code point in U+0000..U+00FF, carried by [ascii]. *)

Module Str.

(** [str.isspace] on one code point: TAB..CR, FS..US, SPACE, NEL, NBSP. *)
Definition isspace (c : ascii) : bool :=
  let n := N_of_ascii c in
  ((9 <=? n) && (n <=? 13) || (28 <=? n) && (n <=? 32) || (n =? 133) || (n =? 160))%N.

(** [str.lower] on one code point: A..Z and the capital letters of
    U+00C0..U+00DE (all but the multiplication sign U+00D7) move up by 32. *)
Definition lower_char (c : ascii) : ascii :=
  let n := N_of_ascii c in
  if ((65 <=? n) && (n <=? 90) || (192 <=? n) && (n <=? 222) && negb (n =? 215))%N
  then ascii_of_N (n + 32) else c.

Fixpoint lower (s : string) : string :=
  match s with
  | EmptyString => EmptyString
  | String c s' => String (lower_char c) (lower s')
  end.

Fixpoint lstrip (s : string) : string :=
  match s with
  | EmptyString => EmptyString
  | String c s' => if isspace c then lstrip s' else s
  end.

Fixpoint rstrip (s : string) : string :=
  match s with
  | EmptyString => EmptyString
  | String c s' =>
      match rstrip s' with
      | EmptyString => if isspace c then EmptyString else String c EmptyString
      | t => String c t
      end
  end.

(** [s.strip()] *)
Definition strip (s : string) : string := rstrip (lstrip s).

(** [not s] for a [str]: the empty string is the only falsy one. *)
Definition is_empty (s : string) : bool :=
  match s with EmptyString => true | _ => false end.

End Str.

(** [email.strip().lower()], the key every helper uses for the [users] table. *)
Definition normalize (email : string) : string := Str.lower (Str.strip email).

(** ** The two tables *)

(** A row of [users]: [id, email, password_hash, reset_token, created_at];
    [reset_token] is the only nullable column. *)
Record user_row : Type := mk_user {
  u_id : Z;
  u_email : string;
  u_password_hash : string;
  u_reset_token : option string;
  u_created_at : string
}.

(** A row of [documents]: [id, user_id, filename, mime, content, created_at]. *)
Record doc_row : Type := mk_doc {
  d_id : Z;
  d_user_id : Z;
  d_filename : option string;
  d_mime : option string;
  d_content : string;
  d_created_at : string
}.

(** The database file.  [users_seq] and [documents_seq] are the entries of
    [sqlite_sequence] that [AUTOINCREMENT] keeps: the largest id ever given
    out in the table, never lowered by a delete. *)
Record DB : Type := mk_db {
  users : list user_row;
  users_seq : Z;
  documents : list doc_row;
  documents_seq : Z
}.

Definition empty_db : DB := mk_db [] 0 [] 0.

(** [init_db]: both statements are [CREATE TABLE IF NOT EXISTS], so an existing
    file is left as it is and a missing one gets two empty tables. *)
Definition init_db (file : option DB) : DB :=
  match file with
  | None => empty_db
  | Some db => db
  end.

(** What a Python call that may raise hands back. *)
Inductive outcome (A : Type) : Type :=
| Returned (a : A)
| Raised.
Arguments Returned {A} a.
Arguments Raised {A}.

Inductive sqlite_error : Type := IntegrityError.

(** ** SQL statements of the helpers *)

(** [SELECT ... FROM users WHERE email=?] followed by [fetchone()]. *)
Definition select_user (db : DB) (email : string) : option user_row :=
  find (fun u => u_email u =? email)%string (users db).

(** [INSERT INTO users(email, password_hash, created_at) VALUES(?,?,?)]:
    [email TEXT UNIQUE] raises [IntegrityError] when a row already has the
    email; otherwise the row gets the next id and a NULL [reset_token]. *)
Definition insert_user (db : DB) (email pw_hash created_at : string)
  : DB + sqlite_error :=
  if existsb (fun u => u_email u =? email)%string (users db)
  then inr IntegrityError
  else
    let id := users_seq db + 1 in
    inl (mk_db (users db ++ [mk_user id email pw_hash None created_at]) id
               (documents db) (documents_seq db)).

(** [UPDATE users SET ... WHERE email=?]: the new table and [cur.rowcount]. *)
Definition update_users (email : string) (set : user_row -> user_row)
    (rows : list user_row) : list user_row * nat :=
  (map (fun u => if (u_email u =? email)%string then set u else u) rows,
   List.length (filter (fun u => u_email u =? email)%string rows)).

Definition with_users (db : DB) (rows : list user_row) : DB :=
  mk_db rows (users_seq db) (documents db) (documents_seq db).

Definition with_documents (db : DB) (rows : list doc_row) : DB :=
  mk_db (users db) (users_seq db) rows (documents_seq db).

Definition set_reset_token (t : option string) (u : user_row) : user_row :=
  mk_user (u_id u) (u_email u) (u_password_hash u) t (u_created_at u).

Definition set_password_hash_and_clear_token (h : string) (u : user_row)
  : user_row :=
  mk_user (u_id u) (u_email u) h None (u_created_at u).

(** [row["reset_token"] != token] where the column is NULL or text and
    [token] is a [str]: NULL differs from every string. *)
Definition token_differs (stored : option string) (token : string) : bool :=
  match stored with
  | None => true
  | Some t => negb (t =? token)%string
  end.

(** ** The helpers' results *)

(** The spec's error names for the three failure messages. *)
Definition InvalidInput : bool * string :=
  (false, "Email and password are required.").
Definition DuplicateEmail : bool * string :=
  (false, "Email already registered.").
Definition InvalidToken : bool * string :=
  (false, "Invalid or expired reset token.").

(** The dict [{"id": ..., "email": ...}] that [verify_user] returns. *)
Record session_user : Type := mk_session {
  s_id : Z;
  s_email : string
}.

(** One projected row of [list_documents]:
    [id, filename, mime, content, created_at]. *)
Record doc_view : Type := mk_view {
  v_id : Z;
  v_filename : option string;
  v_mime : option string;
  v_content : string;
  v_created_at : string
}.

Definition view_of (d : doc_row) : doc_view :=
  mk_view (d_id d) (d_filename d) (d_mime d) (d_content d) (d_created_at d).

(** [ORDER BY id DESC] as an insertion sort on the selected rows. *)
Fixpoint insert_desc (d : doc_row) (l : list doc_row) : list doc_row :=
  match l with
  | [] => [d]
  | x :: l' => if d_id x <? d_id d then d :: l else x :: insert_desc d l'
  end.

Fixpoint order_by_id_desc (l : list doc_row) : list doc_row :=
  match l with
  | [] => []
  | d :: l' => insert_desc d (order_by_id_desc l')
  end.

Section Helpers.

(** [bcrypt.hashpw password salt] and [bcrypt.checkpw password hash]; the
    latter may raise (a malformed stored hash, for one). *)
Variable hashpw : string -> string -> string.
Variable checkpw : string -> string -> outcome bool.

(** [add_user] on a call for which [bcrypt.hashpw] returns and the database
    runs the statements: the required-fields check on the arguments as typed,
    the hash, then the [INSERT] of the normalized email.  [salt] is what
    [bcrypt.gensalt()] drew and [now] is [datetime.utcnow().isoformat()].
    [Raising.add_user] below adds the raise of [hashpw] and the result of the
    last [except] branch; it is this function wherever neither happens. *)
Definition add_user (db : DB) (email password salt now : string)
  : DB * (bool * string) :=
  if Str.is_empty email || Str.is_empty password
  then (db, InvalidInput)
  else
    let pw_hash := hashpw password salt in
    match insert_user db (normalize email) pw_hash now with
    | inl db' => (db', (true, "Registration successful."))
    | inr IntegrityError => (db, DuplicateEmail)
    end.

(** [verify_user]: [None] without a row, and the [try] around [checkpw]
    turns a raise into [None] as well. *)
Definition verify_user (db : DB) (email password : string)
  : option session_user :=
  match select_user db (normalize email) with
  | None => None
  | Some row =>
      match checkpw password (u_password_hash row) with
      | Returned true => Some (mk_session (u_id row) (u_email row))
      | Returned false => None
      | Raised => None
      end
  end.

(** [create_reset_token]: [token] is what [secrets.token_hex(16)] drew; the
    [UPDATE] is committed before [rowcount] is read. *)
Definition create_reset_token (db : DB) (email token : string)
  : DB * option string :=
  let '(rows, rowcount) :=
    update_users (normalize email) (set_reset_token (Some token)) (users db) in
  let db' := with_users db rows in
  if Nat.eqb rowcount 0 then (db', None) else (db', Some token).

(** [reset_password] on a call for which [bcrypt.hashpw] returns: the stored
    token is read and compared, then one [UPDATE] sets the new hash and a
    NULL token.  [Raising.reset_password] below adds the raise of [hashpw];
    it is this function wherever [hashpw] returns. *)
Definition reset_password (db : DB) (email token new_password salt : string)
  : DB * (bool * string) :=
  match select_user db (normalize email) with
  | None => (db, InvalidToken)
  | Some row =>
      if token_differs (u_reset_token row) token
      then (db, InvalidToken)
      else
        let pw_hash := hashpw new_password salt in
        let '(rows, _) :=
          update_users (normalize email)
            (set_password_hash_and_clear_token pw_hash) (users db) in
        (with_users db rows, (true, "Password has been reset successfully."))
  end.

End Helpers.

(** [save_document]: one [INSERT]; nothing is checked and nothing is
    returned. *)
Definition save_document (db : DB) (user_id : Z) (content : string)
    (filename mime : option string) (now : string) : DB :=
  let id := documents_seq db + 1 in
  mk_db (users db) (users_seq db)
        (documents db ++ [mk_doc id user_id filename mime content now]) id.

(** [list_documents]: [SELECT id, filename, mime, content, created_at ...
    WHERE user_id=? ORDER BY id DESC]. *)
Definition list_documents (db : DB) (user_id : Z) : list doc_view :=
  map view_of
    (order_by_id_desc (filter (fun d => d_user_id d =? user_id) (documents db))).

(** [DELETE FROM documents WHERE id=? AND user_id=?] *)
Definition delete_document (db : DB) (doc_id user_id : Z) : DB :=
  with_documents db
    (filter (fun d => negb ((d_id d =? doc_id) && (d_user_id d =? user_id)))
            (documents db)).

(** [x or default] for an optional string: [None] and [""] are falsy. *)
Definition or_default (x : option string) (default : string) : string :=
  match x with
  | None => default
  | Some s => if Str.is_empty s then default else s
  end.

(** The "Save Document" button of the upload tab.  [paste_text] is the text
    area, [extracted_text, filename, mime] what the optional upload gave
    ([""], [None], [None] without one), [user_id] the signed-in user's id.
    The result is the stored state and the message shown. *)
Definition save_button (db : DB) (user_id : Z) (paste_text extracted_text : string)
    (filename mime : option string) (now : string) : DB * (bool * string) :=
  let final_text := Str.strip paste_text in
  let final_text :=
    if Str.is_empty final_text && negb (Str.is_empty extracted_text)
    then Str.strip extracted_text else final_text in
  if Str.is_empty final_text
  then (db, (false, "No content to save. Paste text or upload a file first."))
  else
    (save_document db user_id final_text
       (Some (or_default filename "pasted_text.txt"))
       (Some (or_default mime "text/plain")) now,
     (true, "Document saved to your library.")).

(** ** Runs of the application *)

(** One call of a helper, with the values it draws from its environment. *)
Inductive call : Type :=
| AddUser (email password salt now : string)
| VerifyUser (email password : string)
| CreateResetToken (email token : string)
| ResetPassword (email token new_password salt : string)
| SaveDocument (user_id : Z) (content : string) (filename mime : option string)
               (now : string)
| ListDocuments (user_id : Z)
| DeleteDocument (doc_id user_id : Z).

Section Runs.

Variable hashpw : string -> string -> string.

(** The stored state after a call; the two reading helpers leave it alone. *)
Definition run (c : call) (db : DB) : DB :=
  match c with
  | AddUser e p salt now => fst (add_user hashpw db e p salt now)
  | VerifyUser _ _ => db
  | CreateResetToken e t => fst (create_reset_token db e t)
  | ResetPassword e t p salt => fst (reset_password hashpw db e t p salt)
  | SaveDocument uid c f m now => save_document db uid c f m now
  | ListDocuments _ => db
  | DeleteDocument doc_id uid => delete_document db doc_id uid
  end.

(** The states the application can be in: [init_db] on a missing file,
    followed by any calls. *)
Inductive reachable : DB -> Prop :=
| reachable_init : reachable (init_db None)
| reachable_run (c : call) (db : DB) : reachable db -> reachable (run c db).

End Runs.

(** What the schema's constraints and [AUTOINCREMENT] keep true of the
    [users] table: emails are pairwise different and stored normalized, ids
    grow along the table and stay below the sequence entry. *)
Record users_ok (db : DB) : Prop := {
  users_email_unique : NoDup (map u_email (users db));
  users_email_normalized :
    Forall (fun e => normalize e = e) (map u_email (users db));
  users_id_sorted : StronglySorted Z.lt (map u_id (users db));
  users_id_bound : Forall (fun i => i <= users_seq db) (map u_id (users db))
}.

(** The same for [documents]. *)
Record documents_ok (db : DB) : Prop := {
  documents_id_sorted : StronglySorted Z.lt (map d_id (documents db));
  documents_id_bound :
    Forall (fun i => i <= documents_seq db) (map d_id (documents db))
}.

(** A stand-in for bcrypt on which the helpers can be run: the hash is the
    salt's first character (["$"] for an empty salt) followed by the
    password, and the check compares what follows the first character. *)
Module Model.

Definition hashpw (password salt : string) : string :=
  match salt with
  | EmptyString => String "$"%char password
  | String c _ => String c password
  end.

Definition checkpw (password hashed : string) : outcome bool :=
  match hashed with
  | EmptyString => Raised
  | String _ p => Returned (p =? password)%string
  end.

End Model.

(** Concrete runs on the stand-in, used to evaluate the helpers. *)
Module Scenario.

Definition token1 : string := "0123456789abcdef0123456789abcdef".

(** [a@x.com] registers with password [pw1]. *)
Definition db1 : DB :=
  run Model.hashpw (AddUser "a@x.com" "pw1" "s1" "2024-01-01T10:00:00")
    (init_db None).

(** ... and asks for a reset token. *)
Definition db2 : DB := run Model.hashpw (CreateResetToken "a@x.com" token1) db1.

(** User 1 saves two documents, user 2 one in between. *)
Definition db3 : DB :=
  run Model.hashpw
    (SaveDocument 1 "third" (Some "c.txt") (Some "text/plain")
       "2024-01-02T10:02:00")
    (run Model.hashpw
       (SaveDocument 2 "second" None None "2024-01-02T10:01:00")
       (run Model.hashpw
          (SaveDocument 1 "first" (Some "a.txt") (Some "text/plain")
             "2024-01-02T10:00:00")
          db2)).

End Scenario.

(** ** More of the application *)

(** A run of several calls, first call first. *)
Definition run_all (hashpw : string -> string -> string) (cs : list call)
    (db : DB) : DB :=
  fold_left (fun d c => run hashpw c d) cs db.

(** The columns of a [users] row that no statement assigns after the
    [INSERT]. *)
Definition user_key (u : user_row) : Z * string * string :=
  (u_id u, u_email u, u_created_at u).

(** [s[:n] + ("..." if len(s) > n else "")], the shortening of a text for
    display: [n] is 2000 for the preview of an upload and 280 for a card of
    the library. *)
Definition preview (n : nat) (s : string) : string :=
  substring 0 n s ++ (if (n <? String.length s)%nat then "..." else "").

(** [s.endswith(suffix)] *)
Fixpoint endswith (s suffix : string) : bool :=
  (s =? suffix)%string
  || match s with
     | EmptyString => false
     | String _ s' => endswith s' suffix
     end.

(** ["\n".join(parts)] *)
Fixpoint join_lines (parts : list string) : string :=
  match parts with
  | [] => ""
  | [p] => p
  | p :: rest => p ++ String "010"%char (join_lines rest)
  end.

(** Exceptions the modelled code raises itself or lets through. *)
Inductive exn : Type :=
| RuntimeError (msg : string)
| IndexError (msg : string)
| AttributeError (msg : string)
| OtherError (msg : string).

(** [str(e)] *)
Definition exn_message (e : exn) : string :=
  match e with
  | RuntimeError m | IndexError m | AttributeError m | OtherError m => m
  end.

(** What a call that may raise gives: its value or the exception. *)
Inductive raises (A : Type) : Type :=
| Return (a : A)
| Raise (e : exn).
Arguments Return {A} a.
Arguments Raise {A} e.

(** What Streamlit's uploader hands over: [name], [type] and the content. *)
Record uploaded_file : Type := mk_upload {
  uf_name : string;
  uf_type : option string;
  uf_bytes : string
}.

(** A message box of the page: [st.success], [st.error], [st.info]. *)
Inductive notice : Type :=
| Success (msg : string)
| Error (msg : string)
| Info (msg : string).

Section Upload.

(** [bytes.decode("utf-8", errors="ignore")], which cannot raise. *)
Variable decode : string -> string.
(** [DocxDocument], [None] when python-docx is not installed; on the content
    of a file it raises or gives the texts of the paragraphs. *)
Variable DocxDocument : option (string -> raises (list string)).
(** [PdfReader], [None] when PyPDF2 is not installed; on the content of a file
    it raises or gives the pages, and [extract_text] on a page raises, gives
    [None] or gives a text. *)
Variable PdfReader : option (string -> raises (list (raises (option string)))).

(** [p.extract_text() or ""] inside its [try]. *)
Definition page_text (p : raises (option string)) : string :=
  match p with
  | Return (Some t) => t
  | Return None => ""
  | Raise _ => ""
  end.

(** [read_text_from_upload]: the text, the file name and the mime type.  The
    last branch decodes whatever the file holds; its [except] guards a call
    that does not raise. *)
Definition read_text_from_upload (uploaded : uploaded_file)
  : raises (string * string * string) :=
  let filename := uf_name uploaded in
  let mime := or_default (uf_type uploaded) "" in
  let name_lower := Str.lower filename in
  if endswith name_lower ".txt"
  then Return (decode (uf_bytes uploaded), filename, mime)
  else if endswith name_lower ".docx"
  then
    match DocxDocument with
    | None =>
        Raise (RuntimeError
                 "python-docx not installed. Run: pip install python-docx")
    | Some parse =>
        match parse (uf_bytes uploaded) with
        | Raise e => Raise e
        | Return paragraphs => Return (join_lines paragraphs, filename, mime)
        end
    end
  else if endswith name_lower ".pdf"
  then
    match PdfReader with
    | None => Raise (RuntimeError "PyPDF2 not installed. Run: pip install PyPDF2")
    | Some reader =>
        match reader (uf_bytes uploaded) with
        | Raise e => Raise e
        | Return pages =>
            Return (join_lines (map page_text pages), filename, mime)
        end
    end
  else Return (decode (uf_bytes uploaded), filename, mime).

(** The upload tab before its button: [extracted_text, filename, mime] start
    as [""], [None], [None] and are replaced when a file was uploaded and
    read; a raise is shown and leaves them as they were. *)
Definition extract_upload (uploaded : option uploaded_file)
  : (string * option string * option string) * option notice :=
  match uploaded with
  | None => (("", None, None), None)
  | Some f =>
      match read_text_from_upload f with
      | Return (text, filename, mime) =>
          ((text, Some filename, Some mime),
           Some (Success ("Parsed **" ++ filename ++ "**")))
      | Raise e => (("", None, None), Some (Error (exn_message e)))
      end
  end.

End Upload.

(** One interaction with the page of one browser session. *)
Inductive event : Type :=
| SignIn (email password : string)
| SignOut
| CreateAccount (email password salt now : string)
| SendResetToken (email token : string)
| ResetPasswordClick (email token new_password salt : string)
| SaveDocumentClick (paste_text : string) (uploaded : option uploaded_file)
                    (now : string)
| DeleteClick (doc_id : Z).

(** The stored state and [st.session_state.user]. *)
Record app : Type := mk_app {
  app_db : DB;
  app_user : option session_user
}.

Definition notice_of (r : bool * string) : notice :=
  if fst r then Success (snd r) else Error (snd r).

Section Page.

Variable hashpw : string -> string -> string.
Variable checkpw : string -> string -> outcome bool.
Variable decode : string -> string.
Variable DocxDocument : option (string -> raises (list string)).
Variable PdfReader : option (string -> raises (list (raises (option string)))).

(** The script below [init_db()], run on one interaction.  The sign-in form,
    the registration and the forgotten-password expanders are drawn only when
    nobody is signed in; the sign-out button, the save button and the delete
    buttons, one for each row of the user's list, only when somebody is.  An
    interaction with a widget that is not drawn does not occur and is the
    identity here. *)
Definition handle (ev : event) (a : app) : app * option notice :=
  match app_user a, ev with
  | None, SignIn e p =>
      match verify_user checkpw (app_db a) e p with
      | Some u => (mk_app (app_db a) (Some u), Some (Success "Login successful."))
      | None => (a, Some (Error "Invalid email or password."))
      end
  | None, CreateAccount e p salt now =>
      let r := add_user hashpw (app_db a) e p salt now in
      (mk_app (fst r) None, Some (notice_of (snd r)))
  | None, SendResetToken e t =>
      let r := create_reset_token (app_db a) e t in
      (mk_app (fst r) None,
       Some match snd r with
            | Some token =>
                if Str.is_empty token then Error "Email not found."
                else Info ("Your reset token is: `" ++ token
                           ++ "` (demo only, normally sent via email)")
            | None => Error "Email not found."
            end)
  | None, ResetPasswordClick e t p salt =>
      let r := reset_password hashpw (app_db a) e t p salt in
      (mk_app (fst r) None, Some (notice_of (snd r)))
  | Some u, SignOut => (mk_app (app_db a) None, None)
  | Some u, SaveDocumentClick paste_text uploaded now =>
      let '(extracted_text, filename, mime) :=
        fst (extract_upload decode DocxDocument PdfReader uploaded) in
      let r := save_button (app_db a) (s_id u) paste_text extracted_text
                 filename mime now in
      (mk_app (fst r) (Some u), Some (notice_of (snd r)))
  | Some u, DeleteClick doc_id =>
      match find (fun row => v_id row =? doc_id)
                 (list_documents (app_db a) (s_id u)) with
      | Some row =>
          (mk_app (delete_document (app_db a) (v_id row) (s_id u)) (Some u),
           Some (Success ("Deleted document #"
                          ++ NilZero.string_of_int (Z.to_int (v_id row)))))
      | None => (a, None)
      end
  | _, _ => (a, None)
  end.

(** The states a session can be in, from a missing database file on. *)
Inductive page_reachable : app -> Prop :=
| page_init : page_reachable (mk_app (init_db None) None)
| page_step (ev : event) (a : app) :
    page_reachable a -> page_reachable (fst (handle ev a)).

End Page.

(** ** The chatbot's answer ([chatbot.py]) *)

(** One entry of [intents.json]. *)
Record intent : Type := mk_intent {
  i_tag : string;
  i_patterns : list string;
  i_responses : list string
}.

(** The two loops that collect the training data: a tag and a pattern are
    appended together for every pattern of every intent. *)
Definition training_data (intents : list intent) : list string * list string :=
  fold_left
    (fun acc i =>
       fold_left (fun '(tags, patterns) pattern =>
                    ((tags ++ [i_tag i])%list, (patterns ++ [pattern])%list))
                 (i_patterns i) acc)
    intents ([], []).

(** [random.choice(seq)], [pick] being the number the generator draws: every
    position of a non-empty [seq] can come out, and an empty [seq] raises. *)
Definition choice {A : Type} (pick : nat) (seq : list A) : raises A :=
  match nth_error seq (pick mod List.length seq) with
  | Some a => Return a
  | None => Raise (IndexError "Cannot choose from an empty sequence")
  end.

Definition apology : string :=
  "I'm sorry, I seem to be having a bit of trouble. Please try again.".

Section Chatbot.

Variable intents : list intent.
(** The vectorizer and the classifier on one text: [np.max(probabilities)]
    and [clf.classes_[np.argmax(probabilities)]]. *)
Variable classify : string -> Q * string.

(** The loop [for intent in intents: if intent['tag'] == t: return
    random.choice(intent['responses'])]: [None] when it ends without a
    [return]. *)
Definition respond_with_tag (pick : nat) (t : string) : option (raises string) :=
  match find (fun i => i_tag i =? t)%string intents with
  | Some i => Some (choice pick (i_responses i))
  | None => None
  end.

Definition get_chatbot_response (pick : nat) (input_text : string)
  : raises string :=
  if Str.is_empty input_text
  then choice pick ["Please enter a message."; "What can I help you with?"]
  else
    let '(max_prob, predicted_tag) := classify input_text in
    let confidence_threshold := (1 # 2)%Q in
    match (if negb (Qle_bool confidence_threshold max_prob)
           then respond_with_tag pick "unknown" else None) with
    | Some r => r
    | None =>
        match respond_with_tag pick predicted_tag with
        | Some r => r
        | None => Return apology
        end
    end.

End Chatbot.

(** ** [add_user] and [reset_password] with bcrypt's raise

    [bcrypt.hashpw] raises [ValueError] on a password it does not take (one
    of more than 72 bytes).  [add_user] calls it on line 78, before its
    [try], and [reset_password] on line 136, without one: in both the raise
    leaves the helper before anything is written.  Here [hashpw] may raise,
    and [add_user] has the result of its last [except] branch as well. *)
Module Raising.

Section Raising.

Variable hashpw : string -> string -> outcome string.

(** [add_user].  [Raised] is the exception of [hashpw] leaving the helper.
    [fault] is what the database does to the statements inside the [try]:
    [None] when it runs them, [Some msg] when it raises an error other than
    [IntegrityError] with the text [msg] ("database is locked", for one),
    which the last [except] branch turns into a result. *)
Definition add_user (db : DB) (email password salt now : string)
    (fault : option string) : DB * outcome (bool * string) :=
  if Str.is_empty email || Str.is_empty password
  then (db, Returned InvalidInput)
  else
    match hashpw password salt with
    | Raised => (db, Raised)
    | Returned pw_hash =>
        match fault with
        | Some msg => (db, Returned (false, "Registration failed: " ++ msg))
        | None =>
            match insert_user db (normalize email) pw_hash now with
            | inl db' => (db', Returned (true, "Registration successful."))
            | inr IntegrityError => (db, Returned DuplicateEmail)
            end
        end
    end.

(** [reset_password].  The token is read and compared first; [hashpw] is
    called after the comparison and before the [UPDATE]. *)
Definition reset_password (db : DB) (email token new_password salt : string)
  : DB * outcome (bool * string) :=
  match select_user db (normalize email) with
  | None => (db, Returned InvalidToken)
  | Some row =>
      if token_differs (u_reset_token row) token
      then (db, Returned InvalidToken)
      else
        match hashpw new_password salt with
        | Raised => (db, Raised)
        | Returned pw_hash =>
            let '(rows, _) :=
              update_users (normalize email)
                (set_password_hash_and_clear_token pw_hash) (users db) in
            (with_users db rows,
             Returned (true, "Password has been reset successfully."))
        end
  end.

(** The states the application can be in when [hashpw] may raise and the
    database may fail. *)
Inductive reachable : DB -> Prop :=
| reach_init : reachable (init_db None)
| reach_add_user (db : DB) (e p salt now : string) (fault : option string) :
    reachable db -> reachable (fst (add_user db e p salt now fault))
| reach_create_reset_token (db : DB) (e t : string) :
    reachable db -> reachable (fst (create_reset_token db e t))
| reach_reset_password (db : DB) (e t p salt : string) :
    reachable db -> reachable (fst (reset_password db e t p salt))
| reach_save_document (db : DB) (uid : Z) (c : string)
    (f m : option string) (now : string) :
    reachable db -> reachable (save_document db uid c f m now)
| reach_delete_document (db : DB) (doc_id uid : Z) :
    reachable db -> reachable (delete_document db doc_id uid).

End Raising.

End Raising.

(** The hash [hashpw] returns, for the calls on which it returns. *)
Definition hashpw_total (hashpw : string -> string -> outcome string)
    (password salt : string) : string :=
  match hashpw password salt with
  | Returned h => h
  | Raised => ""
  end.

(** A stand-in with the raise: the number of bytes of the password in UTF-8
    (one for a code point below 128 and two for the others there are here) is
    compared with 72. *)
Module Bcrypt5.

Fixpoint utf8_length (s : string) : nat :=
  match s with
  | EmptyString => 0
  | String c s' =>
      ((if (N_of_ascii c <? 128)%N then 1 else 2) + utf8_length s')%nat
  end.

Definition hashpw (password salt : string) : outcome string :=
  if (72 <? utf8_length password)%nat then Raised
  else Returned (Model.hashpw password salt).

(** ["a" * 73] *)
Definition long_password : string :=
  Eval cbv in
    (fix rep (n : nat) : string :=
       match n with
       | O => EmptyString
       | S n' => String "a"%char (rep n')
       end) 73%nat.

End Bcrypt5.

(** Concrete parsers, a session and an intents file, to evaluate the page,
    the upload and the chatbot. *)
Module PageScenario.

(** The bytes are read as they are; python-docx is missing; the PDF reader
    finds three pages, of which the first gives the file's content, the
    second fails and the third gives nothing. *)
Definition decode (b : string) : string := b.
Definition DocxDocument : option (string -> raises (list string)) := None.
Definition reader (b : string) : raises (list (raises (option string))) :=
  Return [Return (Some b); Raise (OtherError "broken page"); Return None].
Definition PdfReader := Some reader.

Definition handle : event -> app -> app * option notice :=
  handle Model.hashpw Model.checkpw decode DocxDocument PdfReader.

Definition report : uploaded_file :=
  mk_upload "Report.PDF" (Some "application/pdf") "page one".

Definition a0 : app := mk_app (init_db None) None.
(** [a@x.com] creates an account, signs in and saves a pasted text. *)
Definition a1 : app :=
  fst (handle (CreateAccount "a@x.com" "pw1" "s1" "2024-01-01T10:00:00") a0).
Definition a2 : app := fst (handle (SignIn " A@X.com " "pw1") a1).
Definition a3 : app :=
  fst (handle (SaveDocumentClick "  hello  " None "2024-01-02T10:00:00") a2).

Definition intents : list intent :=
  [mk_intent "greeting" ["hi"; "hello"] ["Hello!"; "Hi there"];
   mk_intent "unknown" [] ["Sorry, I did not get that."];
   mk_intent "bye" ["bye"] ["Goodbye"]].

(** The same file without the [unknown] intent. *)
Definition intents_without_unknown : list intent :=
  [mk_intent "greeting" ["hi"; "hello"] ["Hello!"; "Hi there"];
   mk_intent "bye" ["bye"] ["Goodbye"]].

Definition sure_greeting (_ : string) : Q * string := ((3 # 4)%Q, "greeting").
Definition unsure_bye (_ : string) : Q * string := ((1 # 4)%Q, "bye").
Definition sure_bye (_ : string) : Q * string := ((3 # 4)%Q, "bye").

End PageScenario.

(** What the save button makes true of the row it stores: a content that is
    not empty and has no whitespace at either end, a file name and a mime
    type that are present and not empty. *)
Definition document_well_formed (d : doc_row) : Prop :=
  d_content d <> ""
  /\ Str.strip (d_content d) = d_content d
  /\ (exists f, d_filename d = Some f /\ f <> "")
  /\ (exists m, d_mime d = Some m /\ m <> "").

(** The last character of a string. *)
Fixpoint last_char (s : string) : option ascii :=
  match s with
  | EmptyString => None
  | String c EmptyString => Some c
  | String _ s' => last_char s'
  end.

(** A string that is empty or starts with a non-space character. *)
Definition lstripped (s : string) : Prop :=
  match s with
  | EmptyString => True
  | String c _ => Str.isspace c = false
  end.

(** ** Facts about [strip], [lower] and [normalize] *)

Lemma isspace_lower_char (c : ascii) :
  Str.isspace (Str.lower_char c) = Str.isspace c.
Proof. destruct c as [[] [] [] [] [] [] [] []]; reflexivity. Qed.

Lemma lower_char_idem (c : ascii) :
  Str.lower_char (Str.lower_char c) = Str.lower_char c.
Proof. destruct c as [[] [] [] [] [] [] [] []]; reflexivity. Qed.

Lemma lower_idem (s : string) : Str.lower (Str.lower s) = Str.lower s.
Proof.
  induction s as [|c s IH]; simpl; [reflexivity|].
  now rewrite lower_char_idem, IH.
Qed.

Lemma lstrip_lower (s : string) :
  Str.lstrip (Str.lower s) = Str.lower (Str.lstrip s).
Proof.
  induction s as [|c s IH]; simpl; [reflexivity|].
  rewrite isspace_lower_char. destruct (Str.isspace c); [exact IH | reflexivity].
Qed.

Lemma rstrip_lower (s : string) :
  Str.rstrip (Str.lower s) = Str.lower (Str.rstrip s).
Proof.
  induction s as [|c s IH]; simpl; [reflexivity|].
  rewrite IH, isspace_lower_char.
  destruct (Str.rstrip s) as [|c' t]; simpl.
  - destruct (Str.isspace c); reflexivity.
  - reflexivity.
Qed.

Lemma strip_lower (s : string) :
  Str.strip (Str.lower s) = Str.lower (Str.strip s).
Proof. unfold Str.strip. now rewrite lstrip_lower, rstrip_lower. Qed.

Lemma rstrip_idem (s : string) : Str.rstrip (Str.rstrip s) = Str.rstrip s.
Proof.
  induction s as [|c s IH]; simpl; [reflexivity|].
  destruct (Str.rstrip s) as [|c' t] eqn:E.
  - destruct (Str.isspace c) eqn:Ec; simpl; [reflexivity | now rewrite Ec].
  - change (Str.rstrip (String c (String c' t)))
      with (match Str.rstrip (String c' t) with
            | "" => if Str.isspace c then "" else String c ""
            | t' => String c t'
            end).
    now rewrite IH.
Qed.

Lemma lstrip_lstripped (s : string) : lstripped (Str.lstrip s).
Proof.
  induction s as [|c s IH]; simpl; [exact I|].
  destruct (Str.isspace c) eqn:E; [exact IH | exact E].
Qed.

Lemma lstrip_fix (s : string) : lstripped s -> Str.lstrip s = s.
Proof. destruct s as [|c s]; simpl; [reflexivity|]. now intros ->. Qed.

Lemma rstrip_lstripped (s : string) : lstripped s -> lstripped (Str.rstrip s).
Proof.
  destruct s as [|c s]; simpl; [exact id|]. intros E.
  destruct (Str.rstrip s); simpl; [now rewrite E | exact E].
Qed.

Lemma strip_idem (s : string) : Str.strip (Str.strip s) = Str.strip s.
Proof.
  unfold Str.strip.
  rewrite (lstrip_fix (Str.rstrip (Str.lstrip s))).
  - apply rstrip_idem.
  - apply rstrip_lstripped, lstrip_lstripped.
Qed.

Lemma normalize_idem (e : string) : normalize (normalize e) = normalize e.
Proof.
  unfold normalize. now rewrite strip_lower, strip_idem, lower_idem.
Qed.

Lemma is_empty_false (s : string) : Str.is_empty s = false <-> s <> "".
Proof. destruct s; simpl; split; congruence. Qed.

Example strip_example : Str.strip "  a b  " = "a b".
Proof. reflexivity. Qed.

Example normalize_example : normalize "  Alice@X.com " = "alice@x.com".
Proof. reflexivity. Qed.

(** ** Facts about the statements on [users] *)

Lemma find_none_existsb {A} (p : A -> bool) (l : list A) :
  find p l = None <-> existsb p l = false.
Proof.
  induction l as [|a l IH]; simpl; [tauto|].
  destruct (p a); simpl; [split; discriminate | exact IH].
Qed.

Lemma find_app_last {A} (p : A -> bool) (l : list A) (a : A) :
  existsb p l = false -> p a = true -> find p (l ++ [a]) = Some a.
Proof.
  induction l as [|x l IH]; simpl; intros Hl Ha.
  - now rewrite Ha.
  - apply orb_false_iff in Hl as [Hx Hl]. rewrite Hx. now apply IH.
Qed.

Lemma map_update_none {A} (p : A -> bool) (f : A -> A) (l : list A) :
  existsb p l = false -> map (fun a => if p a then f a else a) l = l.
Proof.
  induction l as [|x l IH]; simpl; [reflexivity|]. intros H.
  apply orb_false_iff in H as [Hx Hl]. now rewrite Hx, IH.
Qed.

Lemma filter_none {A} (p : A -> bool) (l : list A) :
  existsb p l = false -> filter p l = [].
Proof.
  induction l as [|x l IH]; simpl; [reflexivity|]. intros H.
  apply orb_false_iff in H as [Hx Hl]. now rewrite Hx, IH.
Qed.

Lemma filter_some_length {A} (p : A -> bool) (l : list A) (a : A) :
  find p l = Some a -> Nat.eqb (List.length (filter p l)) 0 = false.
Proof.
  induction l as [|x l IH]; simpl; [discriminate|].
  destruct (p x); simpl; [reflexivity | exact IH].
Qed.

(** After an [UPDATE ... WHERE email=e] whose assignment leaves the email
    column alone, [SELECT ... WHERE email=e'] finds the same row as before,
    updated when [e' = e]. *)
Lemma find_update (e e' : string) (set : user_row -> user_row)
    (rows : list user_row) :
  (forall u, u_email (set u) = u_email u) ->
  find (fun u => u_email u =? e')%string
       (map (fun u => if (u_email u =? e)%string then set u else u) rows)
  = option_map (fun u => if (u_email u =? e)%string then set u else u)
      (find (fun u => u_email u =? e')%string rows).
Proof.
  intros Hset. induction rows as [|x rows IH]; simpl; [reflexivity|].
  replace (u_email (if (u_email x =? e)%string then set x else x))
    with (u_email x) by (destruct (u_email x =? e)%string; now rewrite ?Hset).
  destruct (u_email x =? e')%string; [reflexivity | exact IH].
Qed.

Lemma map_update_email (e : string) (set : user_row -> user_row)
    (rows : list user_row) :
  (forall u, u_email (set u) = u_email u) ->
  map u_email (map (fun u => if (u_email u =? e)%string then set u else u) rows)
  = map u_email rows.
Proof.
  intros Hset. rewrite map_map. apply map_ext. intros u.
  destruct (u_email u =? e)%string; now rewrite ?Hset.
Qed.

Lemma map_update_id (e : string) (set : user_row -> user_row)
    (rows : list user_row) :
  (forall u, u_id (set u) = u_id u) ->
  map u_id (map (fun u => if (u_email u =? e)%string then set u else u) rows)
  = map u_id rows.
Proof.
  intros Hset. rewrite map_map. apply map_ext. intros u.
  destruct (u_email u =? e)%string; now rewrite ?Hset.
Qed.

Lemma select_user_email (db : DB) (e : string) (u : user_row) :
  select_user db e = Some u -> In u (users db) /\ u_email u = e.
Proof.
  unfold select_user. intros H. apply find_some in H as [Hin He].
  split; [exact Hin | now apply String.eqb_eq].
Qed.

Lemma existsb_email_in (e : string) (rows : list user_row) :
  existsb (fun u => u_email u =? e)%string rows = true <->
  In e (map u_email rows).
Proof.
  rewrite existsb_exists, in_map_iff. split.
  - intros (u & Hin & He). exists u. split; [now apply String.eqb_eq | exact Hin].
  - intros (u & He & Hin). exists u. split; [exact Hin | now apply String.eqb_eq].
Qed.

Lemma StronglySorted_snoc (l : list Z) (b x : Z) :
  StronglySorted Z.lt l -> Forall (fun i => i <= b) l -> b < x ->
  StronglySorted Z.lt (l ++ [x]).
Proof.
  induction l as [|a l IH]; simpl; intros Hs Hb Hx.
  - repeat constructor.
  - apply StronglySorted_inv in Hs as [Hs Ha].
    inversion Hb as [|? ? Hab Hb']; subst.
    constructor; [now apply IH|].
    apply Forall_app. split; [exact Ha|]. constructor; [lia | constructor].
Qed.

Lemma Forall_le_mono (l : list Z) (b b' : Z) :
  b <= b' -> Forall (fun i => i <= b) l -> Forall (fun i => i <= b') l.
Proof. intros Hb. apply Forall_impl. intros; lia. Qed.

Lemma StronglySorted_filter_map {A} (f : A -> Z) (p : A -> bool) (l : list A) :
  StronglySorted Z.lt (map f l) -> StronglySorted Z.lt (map f (filter p l)).
Proof.
  induction l as [|a l IH]; simpl; intros Hs; [constructor|].
  apply StronglySorted_inv in Hs as [Hs Ha].
  destruct (p a); simpl; [|now apply IH].
  constructor; [now apply IH|].
  rewrite Forall_forall in *. intros x Hx. apply Ha.
  apply in_map_iff in Hx as (y & <- & Hy). apply in_map.
  now apply filter_In in Hy as [Hy _].
Qed.

Lemma Forall_filter_map {A} (f : A -> Z) (p : A -> bool) (P : Z -> Prop)
    (l : list A) :
  Forall P (map f l) -> Forall P (map f (filter p l)).
Proof.
  rewrite !Forall_forall. intros H x Hx. apply H.
  apply in_map_iff in Hx as (y & <- & Hy). apply in_map.
  now apply filter_In in Hy as [Hy _].
Qed.

(** ** The constraints hold in every reachable state *)

Lemma users_ok_same (db db' : DB) :
  map u_email (users db') = map u_email (users db) ->
  map u_id (users db') = map u_id (users db) ->
  users_seq db' = users_seq db ->
  users_ok db -> users_ok db'.
Proof.
  intros He Hi Hs [H1 H2 H3 H4].
  constructor; rewrite ?He, ?Hi, ?Hs; assumption.
Qed.

Lemma documents_ok_same (db db' : DB) :
  documents db' = documents db -> documents_seq db' = documents_seq db ->
  documents_ok db -> documents_ok db'.
Proof.
  intros Hd Hs [H1 H2]. constructor; rewrite ?Hd, ?Hs; assumption.
Qed.

Section Preservation.

Variable hashpw : string -> string -> string.

(** [add_user] by cases: a missing field, a taken email, or a new row. *)
Lemma add_user_cases (db : DB) (e p salt now : string) :
  add_user hashpw db e p salt now =
  if Str.is_empty e || Str.is_empty p then (db, InvalidInput)
  else if existsb (fun u => u_email u =? normalize e)%string (users db)
  then (db, DuplicateEmail)
  else (mk_db (users db
               ++ [mk_user (users_seq db + 1) (normalize e) (hashpw p salt)
                     None now])
              (users_seq db + 1) (documents db) (documents_seq db),
        (true, "Registration successful.")).
Proof.
  unfold add_user, insert_user.
  destruct (Str.is_empty e || Str.is_empty p); [reflexivity|].
  destruct (existsb _ (users db)); reflexivity.
Qed.

Lemma add_user_users_ok (db : DB) (e p salt now : string) :
  users_ok db -> users_ok (fst (add_user hashpw db e p salt now)).
Proof.
  intros Hok. rewrite add_user_cases.
  destruct (Str.is_empty e || Str.is_empty p); [exact Hok|].
  destruct (existsb _ (users db)) eqn:Hex; [exact Hok|].
  destruct Hok as [H1 H2 H3 H4]. constructor; simpl; rewrite map_app; simpl.
  - apply NoDup_app; [exact H1 | repeat constructor; intros [] |].
    intros x Hx [<- | []].
    apply existsb_email_in in Hx. congruence.
  - apply Forall_app. split; [exact H2|].
    constructor; [apply normalize_idem | constructor].
  - apply StronglySorted_snoc with (b := users_seq db); [assumption .. | lia].
  - apply Forall_app. split.
    + apply Forall_le_mono with (b := users_seq db); [lia | exact H4].
    + constructor; [lia | constructor].
Qed.

Lemma create_reset_token_users_ok (db : DB) (e t : string) :
  users_ok db -> users_ok (fst (create_reset_token db e t)).
Proof.
  unfold create_reset_token, update_users.
  destruct (Nat.eqb _ 0); simpl;
    (apply users_ok_same; simpl;
     [apply map_update_email | apply map_update_id | ]; reflexivity).
Qed.

Lemma reset_password_users_ok (db : DB) (e t p salt : string) :
  users_ok db -> users_ok (fst (reset_password hashpw db e t p salt)).
Proof.
  unfold reset_password, update_users.
  destruct (select_user db (normalize e)) as [row|]; [|exact id].
  destruct (token_differs _ t); [exact id|]. simpl.
  apply users_ok_same; simpl;
    [apply map_update_email | apply map_update_id | ]; reflexivity.
Qed.

Lemma add_user_documents (db : DB) (e p salt now : string) :
  documents (fst (add_user hashpw db e p salt now)) = documents db /\
  documents_seq (fst (add_user hashpw db e p salt now)) = documents_seq db.
Proof.
  rewrite add_user_cases.
  destruct (Str.is_empty e || Str.is_empty p); [now split|].
  destruct (existsb _ (users db)); now split.
Qed.

Lemma create_reset_token_documents (db : DB) (e t : string) :
  documents (fst (create_reset_token db e t)) = documents db /\
  documents_seq (fst (create_reset_token db e t)) = documents_seq db.
Proof.
  unfold create_reset_token, update_users. destruct (Nat.eqb _ 0); now split.
Qed.

Lemma reset_password_documents (db : DB) (e t p salt : string) :
  documents (fst (reset_password hashpw db e t p salt)) = documents db /\
  documents_seq (fst (reset_password hashpw db e t p salt)) = documents_seq db.
Proof.
  unfold reset_password, update_users.
  destruct (select_user db (normalize e)) as [row|]; [|now split].
  destruct (token_differs _ t); now split.
Qed.

Lemma save_document_documents_ok (db : DB) (uid : Z) (c : string)
    (f m : option string) (now : string) :
  documents_ok db -> documents_ok (save_document db uid c f m now).
Proof.
  intros [H1 H2]. constructor; simpl; rewrite map_app; simpl.
  - apply StronglySorted_snoc with (b := documents_seq db);
      [assumption .. | lia].
  - apply Forall_app. split.
    + apply Forall_le_mono with (b := documents_seq db); [lia | exact H2].
    + constructor; [lia | constructor].
Qed.

Lemma delete_document_documents_ok (db : DB) (doc_id uid : Z) :
  documents_ok db -> documents_ok (delete_document db doc_id uid).
Proof.
  intros [H1 H2]. constructor; simpl.
  - now apply StronglySorted_filter_map.
  - now apply Forall_filter_map.
Qed.

Lemma run_ok (c : call) (db : DB) :
  users_ok db /\ documents_ok db ->
  users_ok (run hashpw c db) /\ documents_ok (run hashpw c db).
Proof.
  intros [Hu Hd]. destruct c; simpl.
  - split; [now apply add_user_users_ok|].
    destruct (add_user_documents db email password salt now).
    now apply documents_ok_same with (db := db).
  - now split.
  - split; [now apply create_reset_token_users_ok|].
    destruct (create_reset_token_documents db email token).
    now apply documents_ok_same with (db := db).
  - split; [now apply reset_password_users_ok|].
    destruct (reset_password_documents db email token new_password salt).
    now apply documents_ok_same with (db := db).
  - split; [|now apply save_document_documents_ok].
    now apply users_ok_same with (db := db).
  - now split.
  - split; [|now apply delete_document_documents_ok].
    now apply users_ok_same with (db := db).
Qed.

Lemma reachable_ok (db : DB) :
  reachable hashpw db -> users_ok db /\ documents_ok db.
Proof.
  induction 1 as [|c db Hr IH].
  - split; constructor; simpl; constructor.
  - now apply run_ok.
Qed.

End Preservation.

(** ** Reading [users] after an [UPDATE] *)

Lemma with_users_same (db : DB) : with_users db (users db) = db.
Proof. now destruct db. Qed.

Lemma select_user_update (db : DB) (e e' : string)
    (set : user_row -> user_row) :
  (forall u, u_email (set u) = u_email u) ->
  select_user (with_users db (fst (update_users e set (users db)))) e'
  = option_map (fun u => if (u_email u =? e)%string then set u else u)
      (select_user db e').
Proof. intros Hset. unfold select_user. simpl. now apply find_update. Qed.

Lemma select_user_updated (db : DB) (e : string) (set : user_row -> user_row)
    (u : user_row) :
  (forall u, u_email (set u) = u_email u) ->
  select_user db e = Some u ->
  select_user (with_users db (fst (update_users e set (users db)))) e
  = Some (set u).
Proof.
  intros Hset Hu. rewrite select_user_update by exact Hset. rewrite Hu. simpl.
  apply select_user_email in Hu as [_ ->]. now rewrite String.eqb_refl.
Qed.

Lemma select_user_not_updated (db : DB) (e e' : string)
    (set : user_row -> user_row) :
  (forall u, u_email (set u) = u_email u) ->
  e' <> e ->
  select_user (with_users db (fst (update_users e set (users db)))) e'
  = select_user db e'.
Proof.
  intros Hset Hne. rewrite select_user_update by exact Hset.
  destruct (select_user db e') as [u|] eqn:Hu; [|reflexivity]. simpl.
  apply select_user_email in Hu as [_ ->].
  now apply String.eqb_neq in Hne as ->.
Qed.

Lemma create_reset_token_cases (db : DB) (e t : string) :
  create_reset_token db e t =
  match select_user db (normalize e) with
  | None => (db, None)
  | Some _ =>
      (with_users db
         (fst (update_users (normalize e) (set_reset_token (Some t)) (users db))),
       Some t)
  end.
Proof.
  unfold create_reset_token, update_users, select_user.
  destruct (find _ (users db)) as [u|] eqn:Hu.
  - now rewrite (filter_some_length _ _ _ Hu).
  - apply find_none_existsb in Hu.
    rewrite (filter_none _ _ Hu), (map_update_none _ _ _ Hu). simpl.
    now rewrite with_users_same.
Qed.

Lemma token_differs_same (t : string) : token_differs (Some t) t = false.
Proof. simpl. now rewrite String.eqb_refl. Qed.


Section Redeem.

Variable hashpw : string -> string -> string.

(** [reset_password] on a pending token that matches. *)
Lemma reset_password_match (db : DB) (e t p salt : string) (u : user_row) :
  select_user db (normalize e) = Some u ->
  u_reset_token u = Some t ->
  reset_password hashpw db e t p salt =
  (with_users db
     (fst (update_users (normalize e)
             (set_password_hash_and_clear_token (hashpw p salt)) (users db))),
   (true, "Password has been reset successfully.")).
Proof.
  intros Hu Ht. unfold reset_password.
  now rewrite Hu, Ht, token_differs_same.
Qed.

(** [reset_password] when the stored token is NULL or another string. *)
Lemma reset_password_mismatch (db : DB) (e t p salt : string) (u : user_row) :
  select_user db (normalize e) = Some u ->
  token_differs (u_reset_token u) t = true ->
  reset_password hashpw db e t p salt = (db, InvalidToken).
Proof. intros Hu Ht. unfold reset_password. now rewrite Hu, Ht. Qed.

End Redeem.

(** ** Credential store and reset tokens *)

Section Credentials.

Variable hashpw : string -> string -> string.
Variable checkpw : string -> string -> outcome bool.

(** bcrypt's contract: a password checks against every hash made from it. *)
Hypothesis checkpw_hashpw :
  forall password salt, checkpw password (hashpw password salt) = Returned true.

(** C2.  When [add_user] accepts an email and a password (both are non-empty
    and no row has the normalized email), it appends one row carrying the next
    id of the table, and [verify_user] with the same email and password
    returns that id together with the normalized email. *)
Theorem add_user_then_verify_user (db db' : DB) (e p salt now msg : string) :
  add_user hashpw db e p salt now = (db', (true, msg)) ->
  (e <> "" /\ p <> "" /\ select_user db (normalize e) = None)
  /\ users db' =
     (users db
      ++ [mk_user (users_seq db + 1) (normalize e) (hashpw p salt) None now])%list
  /\ verify_user checkpw db' e p
     = Some (mk_session (users_seq db + 1) (normalize e)).
Proof.
  rewrite add_user_cases.
  destruct (Str.is_empty e) eqn:He; [discriminate|].
  destruct (Str.is_empty p) eqn:Hp; [discriminate|]. simpl.
  destruct (existsb _ (users db)) eqn:Hex; [discriminate|].
  intros H. injection H as <- _.
  split; [|split].
  - repeat split; [now apply is_empty_false .. |].
    now apply find_none_existsb.
  - reflexivity.
  - unfold verify_user, select_user. simpl.
    rewrite (find_app_last _ _ _ Hex) by apply String.eqb_refl.
    simpl. now rewrite checkpw_hashpw.
Qed.

(** C10.  [reset_password] does not look at the new password: with a pending
    token that matches, an empty new password is accepted and the stored hash
    becomes the hash of the empty string, although [add_user] turns an empty
    password down with [InvalidInput]. *)
Theorem reset_password_accepts_empty_password (db : DB) (e t salt : string)
    (u : user_row) :
  select_user db (normalize e) = Some u ->
  u_reset_token u = Some t ->
  snd (reset_password hashpw db e t "" salt)
  = (true, "Password has been reset successfully.")
  /\ select_user (fst (reset_password hashpw db e t "" salt)) (normalize e)
     = Some (mk_user (u_id u) (u_email u) (hashpw "" salt) None (u_created_at u))
  /\ verify_user checkpw (fst (reset_password hashpw db e t "" salt)) e ""
     = Some (mk_session (u_id u) (u_email u))
  /\ (forall db0 e0 salt0 now,
        add_user hashpw db0 e0 "" salt0 now = (db0, InvalidInput)).
Proof.
  intros Hu Ht.
  rewrite (reset_password_match hashpw db e t "" salt u Hu Ht). cbn [fst snd].
  assert (Hsel : select_user
            (with_users db
               (fst (update_users (normalize e)
                  (set_password_hash_and_clear_token (hashpw "" salt))
                  (users db)))) (normalize e)
          = Some (set_password_hash_and_clear_token (hashpw "" salt) u))
    by (now apply select_user_updated).
  split; [reflexivity|]. split; [exact Hsel|]. split.
  - unfold verify_user. rewrite Hsel. simpl. now rewrite checkpw_hashpw.
  - intros db0 e0 salt0 now. unfold add_user. simpl.
    now rewrite orb_true_r.
Qed.

(** C6.  [verify_user] returns [None] when no row has the normalized email,
    when bcrypt says the password does not match, and when bcrypt raises;
    the three results are the same value, and a raise never leaves the
    function. *)
Theorem verify_user_fails_closed (db : DB) (e p : string) :
  (select_user db (normalize e) = None -> verify_user checkpw db e p = None)
  /\ (forall u, select_user db (normalize e) = Some u ->
        checkpw p (u_password_hash u) = Returned false ->
        verify_user checkpw db e p = None)
  /\ (forall u, select_user db (normalize e) = Some u ->
        checkpw p (u_password_hash u) = Raised ->
        verify_user checkpw db e p = None)
  /\ (forall r, verify_user checkpw db e p = Some r ->
        exists u, select_user db (normalize e) = Some u
                  /\ checkpw p (u_password_hash u) = Returned true
                  /\ r = mk_session (u_id u) (u_email u)).
Proof.
  unfold verify_user. repeat split.
  - now intros ->.
  - now intros u -> ->.
  - now intros u -> ->.
  - intros r. destruct (select_user db (normalize e)) as [u|]; [|discriminate].
    destruct (checkpw p (u_password_hash u)) as [[|]|] eqn:Hc; try discriminate.
    intros H. injection H as <-. now exists u.
Qed.


End Credentials.

(** ** Email uniqueness *)

Lemma NoDup_map_inj {A B} (f : A -> B) (l : list A) (x y : A) :
  NoDup (map f l) -> In x l -> In y l -> f x = f y -> x = y.
Proof.
  induction l as [|a l IH]; simpl; [tauto|].
  intros Hnd Hx Hy Hf. inversion Hnd as [|? ? Hna Hnd']; subst.
  destruct Hx as [<- | Hx], Hy as [<- | Hy]; [reflexivity | | | now apply IH].
  - exfalso. apply Hna. rewrite Hf. now apply in_map.
  - exfalso. apply Hna. rewrite <- Hf. now apply in_map.
Qed.

Section Registration.

Variable hashpw : string -> string -> string.

(** C5, the input on which the code departs from it.  The required-fields
    check of [add_user] reads the email as typed and the email is normalized
    only for the [INSERT], so an email of three spaces passes the check and a
    user with the empty email is created. *)
Theorem add_user_whitespace_only_email (salt now : string) :
  Str.strip "   " = ""
  /\ add_user hashpw (init_db None) "   " "pw" salt now
     = (mk_db [mk_user 1 "" (hashpw "pw" salt) None now] 1 [] 0,
        (true, "Registration successful.")).
Proof. split; reflexivity. Qed.

(** The same for every email that is not empty as typed and normalizes to
    the empty string, as long as no user with the empty email exists yet. *)
Lemma add_user_blank_email_accepted (db : DB) (e p salt now : string) :
  e <> "" -> p <> "" -> normalize e = "" -> select_user db "" = None ->
  add_user hashpw db e p salt now
  = (mk_db (users db ++ [mk_user (users_seq db + 1) "" (hashpw p salt) None now])
       (users_seq db + 1) (documents db) (documents_seq db),
     (true, "Registration successful.")).
Proof.
  intros He Hp Hn Hsel. rewrite add_user_cases, Hn.
  apply is_empty_false in He, Hp. rewrite He, Hp. simpl.
  apply find_none_existsb in Hsel. unfold select_user in Hsel.
  now rewrite Hsel.
Qed.

(** The part of C5 the code does keep: an email or a password that is empty
    as typed is turned down with [InvalidInput] and nothing is stored. *)
Lemma add_user_missing_field (db : DB) (e p salt now : string) :
  e = "" \/ p = "" -> add_user hashpw db e p salt now = (db, InvalidInput).
Proof.
  intros H. rewrite add_user_cases.
  destruct H as [-> | ->]; simpl; [reflexivity | now rewrite orb_true_r].
Qed.

End Registration.

(** ** Facts about [ORDER BY id DESC] and the [documents] table *)

Lemma insert_desc_In (d x : doc_row) (l : list doc_row) :
  In x (insert_desc d l) <-> x = d \/ In x l.
Proof.
  induction l as [|a l IH]; simpl.
  - split; intros [H | H]; auto.
  - destruct (d_id a <? d_id d); simpl; [split; intros [H | H]; auto|].
    rewrite IH. tauto.
Qed.

Lemma order_by_id_desc_In (x : doc_row) (l : list doc_row) :
  In x (order_by_id_desc l) <-> In x l.
Proof.
  induction l as [|a l IH]; simpl; [tauto|].
  rewrite insert_desc_In, IH. split; intros [H | H]; auto.
Qed.

Lemma insert_desc_last (d : doc_row) (l : list doc_row) :
  Forall (fun x => d_id d < d_id x) l -> insert_desc d l = (l ++ [d])%list.
Proof.
  induction l as [|a l IH]; simpl; intros H; [reflexivity|].
  inversion H as [|? ? Ha Hl]; subst.
  destruct (d_id a <? d_id d) eqn:E; [apply Z.ltb_lt in E; lia|].
  now rewrite IH.
Qed.

(** On rows stored with growing ids the order is the reverse of the table's. *)
Lemma order_by_id_desc_rev (l : list doc_row) :
  StronglySorted Z.lt (map d_id l) -> order_by_id_desc l = rev l.
Proof.
  induction l as [|a l IH]; simpl; intros Hs; [reflexivity|].
  apply StronglySorted_inv in Hs as [Hs Ha].
  rewrite IH by exact Hs. apply insert_desc_last.
  rewrite Forall_forall in *. intros x Hx. apply Ha.
  apply in_map. now apply in_rev.
Qed.

Lemma StronglySorted_gt_rev (l : list Z) :
  StronglySorted Z.lt l -> StronglySorted Z.gt (rev l).
Proof.
  induction l as [|a l IH]; simpl; intros Hs; [constructor|].
  apply StronglySorted_inv in Hs as [Hs Ha]. specialize (IH Hs).
  assert (Hall : Forall (fun i => i > a) (rev l)).
  { rewrite Forall_forall in *. intros x Hx. apply in_rev in Hx.
    specialize (Ha x Hx). lia. }
  clear Ha Hs. induction (rev l) as [|b r IHr]; simpl.
  - repeat constructor.
  - apply StronglySorted_inv in IH as [Hr Hb].
    inversion Hall as [|? ? Hba Hall']; subst.
    constructor; [now apply IHr|].
    apply Forall_app. split; [exact Hb | now repeat constructor].
Qed.

Lemma StronglySorted_lt_NoDup (l : list Z) :
  StronglySorted Z.lt l -> NoDup l.
Proof.
  induction l as [|a l IH]; intros Hs; [constructor|].
  apply StronglySorted_inv in Hs as [Hs Ha].
  constructor; [|now apply IH].
  intros Hin. rewrite Forall_forall in Ha. specialize (Ha a Hin). lia.
Qed.

Lemma filter_all {A} (p : A -> bool) (l : list A) :
  (forall x, In x l -> p x = true) -> filter p l = l.
Proof.
  induction l as [|a l IH]; simpl; intros H; [reflexivity|].
  rewrite (H a) by now left. f_equal. apply IH. intros x Hx. apply H. now right.
Qed.

Lemma filter_filter_keep {A} (p q : A -> bool) (l : list A) :
  (forall x, In x l -> p x = true -> q x = true) ->
  filter p (filter q l) = filter p l.
Proof.
  induction l as [|a l IH]; simpl; intros H; [reflexivity|].
  assert (IH' : filter p (filter q l) = filter p l)
    by (apply IH; intros x Hx; apply H; now right).
  destruct (q a) eqn:Eq; simpl.
  - now rewrite IH'.
  - destruct (p a) eqn:Ep; [|exact IH'].
    rewrite (H a) in Eq; [discriminate | now left | exact Ep].
Qed.

Lemma with_documents_same (db : DB) : with_documents db (documents db) = db.
Proof. now destruct db. Qed.

Lemma list_documents_In (db : DB) (uid : Z) (v : doc_view) :
  In v (list_documents db uid) <->
  exists d, In d (documents db) /\ d_user_id d = uid /\ view_of d = v.
Proof.
  unfold list_documents. rewrite in_map_iff. split.
  - intros (d & Hv & Hd). apply order_by_id_desc_In, filter_In in Hd as [Hd Ho].
    exists d. repeat split; [exact Hd | now apply Z.eqb_eq | exact Hv].
  - intros (d & Hd & Ho & Hv). exists d. split; [exact Hv|].
    apply order_by_id_desc_In, filter_In. split; [exact Hd | now apply Z.eqb_eq].
Qed.

Lemma list_documents_rev (db : DB) (uid : Z) :
  documents_ok db ->
  list_documents db uid
  = map view_of (rev (filter (fun d => d_user_id d =? uid) (documents db))).
Proof.
  intros [Hs _]. unfold list_documents. f_equal.
  apply order_by_id_desc_rev. now apply StronglySorted_filter_map.
Qed.

Lemma map_v_id_view_of (l : list doc_row) :
  map v_id (map view_of l) = map d_id l.
Proof. rewrite map_map. now apply map_ext. Qed.

Lemma list_documents_save (db : DB) (owner uid : Z) (c : string)
    (f m : option string) (now : string) :
  documents_ok db ->
  list_documents (save_document db owner c f m now) uid
  = if owner =? uid
    then mk_view (documents_seq db + 1) f m c now :: list_documents db uid
    else list_documents db uid.
Proof.
  intros Hok.
  rewrite (list_documents_rev (save_document db owner c f m now))
    by now apply save_document_documents_ok.
  rewrite (list_documents_rev db) by exact Hok.
  simpl. rewrite filter_app. simpl.
  destruct (owner =? uid); [|now rewrite app_nil_r].
  now rewrite rev_app_distr.
Qed.

(** A stored row is the only one with its id. *)
Lemma documents_id_unique (db : DB) (d x : doc_row) :
  documents_ok db -> In d (documents db) -> In x (documents db) ->
  d_id x = d_id d -> x = d.
Proof.
  intros [Hs _] Hd Hx He.
  apply (NoDup_map_inj d_id (documents db)); auto.
  now apply StronglySorted_lt_NoDup.
Qed.

(** The table around a stored row: no other row has its id. *)
Lemma documents_split (db : DB) (d : doc_row) :
  documents_ok db -> In d (documents db) ->
  exists l1 l2, documents db = (l1 ++ d :: l2)%list
                /\ forall x, In x (l1 ++ l2)%list -> d_id x <> d_id d.
Proof.
  intros [Hs _] Hd. apply in_split in Hd as (l1 & l2 & Heq).
  exists l1, l2. split; [exact Heq|].
  apply StronglySorted_lt_NoDup in Hs. rewrite Heq, map_app in Hs. simpl in Hs.
  apply NoDup_remove_2 in Hs. intros x Hx Hid. apply Hs.
  rewrite <- map_app, <- Hid. now apply in_map.
Qed.

(** ** Document repository *)

Section Documents.

Variable hashpw : string -> string -> string.

(** C8.  In every reachable state [list_documents] returns the rows of
    [documents] whose [user_id] is the one asked for, all of them and no
    others, newest first: the result is the table, which holds the rows in the
    order they were saved, filtered by owner and reversed; its ids strictly
    decrease; a save by the owner puts the new document at the head and a save
    by anyone else leaves the list as it was.  It is empty when the owner has
    no document, and the id of another owner's document never occurs in it. *)
Theorem list_documents_owner_newest_first (db : DB) (uid : Z) :
  reachable hashpw db ->
  list_documents db uid
  = map view_of (rev (filter (fun d => d_user_id d =? uid) (documents db)))
  /\ (forall v, In v (list_documents db uid) <->
        exists d, In d (documents db) /\ d_user_id d = uid /\ view_of d = v)
  /\ ((forall d, In d (documents db) -> d_user_id d <> uid) ->
      list_documents db uid = [])
  /\ (forall d, In d (documents db) -> d_user_id d <> uid ->
        ~ In (d_id d) (map v_id (list_documents db uid)))
  /\ StronglySorted Z.gt (map v_id (list_documents db uid))
  /\ (forall c f m now,
        list_documents (save_document db uid c f m now) uid
        = mk_view (documents_seq db + 1) f m c now :: list_documents db uid)
  /\ (forall other c f m now, other <> uid ->
        list_documents (save_document db other c f m now) uid
        = list_documents db uid).
Proof.
  intros Hr. destruct (reachable_ok hashpw db Hr) as [_ Hok].
  split; [now apply list_documents_rev|].
  split; [apply list_documents_In|].
  split; [|split; [|split; [|split]]].
  - intros Hnone. destruct (list_documents db uid) as [|v l] eqn:E;
      [reflexivity|].
    assert (Hv : In v (list_documents db uid)) by (rewrite E; now left).
    apply list_documents_In in Hv as (d & Hd & Ho & _).
    now destruct (Hnone d Hd).
  - intros d Hd Ho Hin. apply in_map_iff in Hin as (v & Hv & Hin).
    apply list_documents_In in Hin as (x & Hx & Hxo & <-). simpl in Hv.
    apply Ho. rewrite <- (documents_id_unique db d x Hok Hd Hx Hv). exact Hxo.
  - rewrite list_documents_rev by exact Hok.
    rewrite map_v_id_view_of, map_rev. apply StronglySorted_gt_rev.
    apply StronglySorted_filter_map. now destruct Hok.
  - intros c f m now. rewrite list_documents_save by exact Hok.
    now rewrite Z.eqb_refl.
  - intros other c f m now Hne. rewrite list_documents_save by exact Hok.
    now apply Z.eqb_neq in Hne as ->.
Qed.

(** C9.  In every reachable state [delete_document] touches nothing but the
    [documents] table.  It changes nothing when no document has the id, and
    nothing when the document with the id belongs to someone else.  When the
    document with the id belongs to the caller, that row and only that row
    leaves the table, the others keep their order; the id is in no list
    afterwards, the caller's list is the old one without that document, and
    the lists of other owners are as before. *)
Theorem delete_document_owner_scoped (db : DB) (doc_id uid : Z) :
  reachable hashpw db ->
  let db' := delete_document db doc_id uid in
  (users db' = users db /\ users_seq db' = users_seq db
   /\ documents_seq db' = documents_seq db)
  /\ (~ In doc_id (map d_id (documents db)) -> db' = db)
  /\ (forall d, In d (documents db) -> d_id d = doc_id ->
        d_user_id d <> uid -> db' = db)
  /\ (forall d, In d (documents db) -> d_id d = doc_id -> d_user_id d = uid ->
        (exists l1 l2, documents db = (l1 ++ d :: l2)%list
                       /\ documents db' = (l1 ++ l2)%list)
        /\ (forall x, In x (documents db') <-> In x (documents db) /\ x <> d)
        /\ (forall owner, ~ In doc_id (map v_id (list_documents db' owner)))
        /\ (exists v1 v2,
              list_documents db uid = (v1 ++ view_of d :: v2)%list
              /\ list_documents db' uid = (v1 ++ v2)%list)
        /\ (forall other, other <> uid ->
              list_documents db' other = list_documents db other)).
Proof.
  intros Hr db'. subst db'.
  destruct (reachable_ok hashpw db Hr) as [_ Hok].
  assert (Hok' : documents_ok (delete_document db doc_id uid))
    by now apply delete_document_documents_ok.
  assert (Hnoop : (forall x, In x (documents db) ->
                     negb ((d_id x =? doc_id) && (d_user_id x =? uid)) = true) ->
                  delete_document db doc_id uid = db).
  { intros H. unfold delete_document. rewrite filter_all by exact H.
    apply with_documents_same. }
  split; [now repeat split|]. split; [|split].
  - intros Hnot. apply Hnoop. intros x Hx.
    destruct (d_id x =? doc_id) eqn:E; [|reflexivity].
    apply Z.eqb_eq in E. exfalso. apply Hnot. rewrite <- E. now apply in_map.
  - intros d Hd Hid Ho. apply Hnoop. intros x Hx.
    destruct (d_id x =? doc_id) eqn:E; [|reflexivity].
    apply Z.eqb_eq in E. simpl.
    rewrite (documents_id_unique db d x Hok Hd Hx) by congruence.
    apply Z.eqb_neq in Ho. now rewrite Ho.
  - intros d Hd Hid Ho.
    destruct (documents_split db d Hok Hd) as (l1 & l2 & Heq & Hother).
    assert (Hdel : documents (delete_document db doc_id uid) = (l1 ++ l2)%list).
    { unfold delete_document. simpl. rewrite Heq, filter_app. simpl.
      rewrite Hid, Ho, !Z.eqb_refl. simpl.
      rewrite !filter_all; [reflexivity | |].
      - intros x Hx. destruct (d_id x =? doc_id) eqn:E; [|reflexivity].
        apply Z.eqb_eq in E. exfalso.
        apply (Hother x); [apply in_or_app; now right | congruence].
      - intros x Hx. destruct (d_id x =? doc_id) eqn:E; [|reflexivity].
        apply Z.eqb_eq in E. exfalso.
        apply (Hother x); [apply in_or_app; now left | congruence]. }
    split; [now exists l1, l2|]. split; [|split; [|split]].
    + intros x. rewrite Hdel, Heq, !in_app_iff. simpl. split.
      * intros Hx. split; [tauto|]. intros ->.
        apply (Hother d); [now apply in_or_app | reflexivity].
      * intros [[Hx | [Hx | Hx]] Hne]; [now left | now destruct Hne | now right].
    + intros owner Hin. apply in_map_iff in Hin as (v & Hv & Hin).
      apply list_documents_In in Hin as (x & Hx & _ & <-). simpl in Hv.
      rewrite Hdel in Hx. apply (Hother x Hx). congruence.
    + rewrite (list_documents_rev db) by exact Hok.
      rewrite (list_documents_rev (delete_document db doc_id uid)) by exact Hok'.
      rewrite Hdel, Heq, !filter_app. simpl. rewrite Ho, Z.eqb_refl.
      exists (map view_of (rev (filter (fun x => d_user_id x =? uid) l2))),
             (map view_of (rev (filter (fun x => d_user_id x =? uid) l1))).
      rewrite !rev_app_distr. simpl.
      rewrite <- !app_assoc, !map_app. simpl. now split.
    + intros other Hne. unfold list_documents, delete_document. simpl.
      rewrite filter_filter_keep; [reflexivity|].
      intros x _ Hx. apply Z.eqb_eq in Hx.
      destruct (d_user_id x =? uid) eqn:E; [|now rewrite andb_false_r].
      apply Z.eqb_eq in E. congruence.
Qed.

(** C4, as the code has it.  [save_document] checks nothing and returns
    nothing: for every content, the empty one too, it appends one row with the
    owner, the content and the timestamp it was given, under an id that no
    stored row has, and the row heads the owner's list.  It is the
    "Save Document" handler in front of it that turns empty content down:
    when the pasted and the extracted text are both empty after trimming it
    reports an error and stores nothing, and whenever it does call
    [save_document] the content is not empty. *)
Theorem save_document_persists_any_content (db : DB) (uid : Z) (c : string)
    (f m : option string) (now : string) :
  reachable hashpw db ->
  let db' := save_document db uid c f m now in
  documents db'
  = (documents db ++ [mk_doc (documents_seq db + 1) uid f m c now])%list
  /\ users db' = users db
  /\ ~ In (documents_seq db + 1) (map d_id (documents db))
  /\ list_documents db' uid
     = mk_view (documents_seq db + 1) f m c now :: list_documents db uid
  /\ (forall paste extracted fn mi,
        Str.strip paste = "" -> Str.strip extracted = "" ->
        save_button db uid paste extracted fn mi now
        = (db, (false, "No content to save. Paste text or upload a file first.")))
  /\ (forall paste extracted fn mi db2 msg,
        save_button db uid paste extracted fn mi now = (db2, (true, msg)) ->
        exists content,
          content <> ""
          /\ db2 = save_document db uid content
                     (Some (or_default fn "pasted_text.txt"))
                     (Some (or_default mi "text/plain")) now).
Proof.
  intros Hr db'. subst db'.
  destruct (reachable_ok hashpw db Hr) as [_ Hok].
  split; [reflexivity|]. split; [reflexivity|]. split; [|split; [|split]].
  - destruct Hok as [_ Hb]. intros Hin. rewrite Forall_forall in Hb.
    specialize (Hb _ Hin). lia.
  - rewrite list_documents_save by exact Hok. now rewrite Z.eqb_refl.
  - intros paste extracted fn mi Hp He. unfold save_button.
    rewrite Hp, He. simpl. now destruct (Str.is_empty extracted).
  - intros paste extracted fn mi db2 msg. unfold save_button.
    set (final := if Str.is_empty (Str.strip paste)
                     && negb (Str.is_empty extracted)
                  then Str.strip extracted else Str.strip paste).
    destruct (Str.is_empty final) eqn:E; [discriminate|].
    intros H. injection H as <- _. exists final.
    split; [now apply is_empty_false | reflexivity].
Qed.

End Documents.

(** ** The theorems on concrete runs *)

Lemma model_checkpw_hashpw (password salt : string) :
  Model.checkpw password (Model.hashpw password salt) = Returned true.
Proof.
  unfold Model.hashpw, Model.checkpw.
  destruct salt; now rewrite String.eqb_refl.
Qed.

Lemma scenario_db2_reachable : reachable Model.hashpw Scenario.db2.
Proof. repeat apply reachable_run. apply reachable_init. Qed.

Lemma scenario_db3_reachable : reachable Model.hashpw Scenario.db3.
Proof. repeat apply reachable_run. apply reachable_init. Qed.

Example scenario_db3_value :
  Scenario.db3
  = mk_db [mk_user 1 "a@x.com" "spw1" (Some Scenario.token1)
             "2024-01-01T10:00:00"] 1
          [mk_doc 1 1 (Some "a.txt") (Some "text/plain") "first"
             "2024-01-02T10:00:00";
           mk_doc 2 2 None None "second" "2024-01-02T10:01:00";
           mk_doc 3 1 (Some "c.txt") (Some "text/plain") "third"
             "2024-01-02T10:02:00"] 3.
Proof. reflexivity. Qed.

(** C2 on the first registration of the scenario, typed with other case and
    with spaces around. *)
Lemma add_user_then_verify_user_witness :
  add_user Model.hashpw (init_db None) " A@X.com " "pw1" "s1"
    "2024-01-01T10:00:00"
  = (Scenario.db1, (true, "Registration successful."))
  /\ verify_user Model.checkpw Scenario.db1 " A@X.com " "pw1"
     = Some (mk_session 1 "a@x.com").
Proof.
  split; [reflexivity|].
  apply (add_user_then_verify_user Model.hashpw Model.checkpw
           model_checkpw_hashpw (init_db None) Scenario.db1 " A@X.com " "pw1"
           "s1" "2024-01-01T10:00:00" "Registration successful." eq_refl).
Defined.

(** C10 on the scenario: the token is redeemed for the empty password. *)
Lemma reset_password_accepts_empty_password_witness :
  select_user Scenario.db2 (normalize "a@x.com")
  = Some (mk_user 1 "a@x.com" "spw1" (Some Scenario.token1)
            "2024-01-01T10:00:00")
  /\ snd (reset_password Model.hashpw Scenario.db2 "a@x.com" Scenario.token1
            "" "s2")
     = (true, "Password has been reset successfully.")
  /\ select_user
       (fst (reset_password Model.hashpw Scenario.db2 "a@x.com"
               Scenario.token1 "" "s2")) "a@x.com"
     = Some (mk_user 1 "a@x.com" "s" None "2024-01-01T10:00:00")
  /\ add_user Model.hashpw Scenario.db2 "b@x.com" "" "s3" "2024-01-03T10:00:00"
     = (Scenario.db2, InvalidInput).
Proof.
  destruct (reset_password_accepts_empty_password Model.hashpw Model.checkpw
              model_checkpw_hashpw Scenario.db2 "a@x.com" Scenario.token1 "s2"
              _ eq_refl eq_refl)
    as (H1 & H2 & _ & H4).
  split; [reflexivity|]. split; [exact H1|]. split; [exact H2 | apply H4].
Defined.

(** C6 on an unknown email, on a wrong password and on a stored hash that
    makes the check raise. *)
Lemma verify_user_fails_closed_witness :
  verify_user Model.checkpw Scenario.db1 "nobody@x.com" "pw1" = None
  /\ verify_user Model.checkpw Scenario.db1 "a@x.com" "wrong" = None
  /\ verify_user Model.checkpw
       (mk_db [mk_user 1 "a@x.com" "" None "2024-01-01T10:00:00"] 1 [] 0)
       "a@x.com" "pw1" = None.
Proof.
  destruct (verify_user_fails_closed Model.checkpw Scenario.db1
              "nobody@x.com" "pw1") as (Hnone & _).
  destruct (verify_user_fails_closed Model.checkpw Scenario.db1
              "a@x.com" "wrong") as (_ & Hwrong & _).
  destruct (verify_user_fails_closed Model.checkpw
              (mk_db [mk_user 1 "a@x.com" "" None "2024-01-01T10:00:00"] 1
                 [] 0) "a@x.com" "pw1") as (_ & _ & Hraise & _).
  split; [|split].
  - apply Hnone. reflexivity.
  - apply (Hwrong (mk_user 1 "a@x.com" "spw1" None "2024-01-01T10:00:00"));
      reflexivity.
  - apply (Hraise (mk_user 1 "a@x.com" "" None "2024-01-01T10:00:00"));
      reflexivity.
Defined.


(** C8 on the scenario: user 1 sees documents 3 and 1, user 7 none. *)
Lemma list_documents_owner_newest_first_witness :
  reachable Model.hashpw Scenario.db3
  /\ list_documents Scenario.db3 1
     = [mk_view 3 (Some "c.txt") (Some "text/plain") "third"
          "2024-01-02T10:02:00";
        mk_view 1 (Some "a.txt") (Some "text/plain") "first"
          "2024-01-02T10:00:00"]
  /\ list_documents Scenario.db3 7 = [].
Proof.
  split; [exact scenario_db3_reachable|].
  destruct (list_documents_owner_newest_first Model.hashpw Scenario.db3 1
              scenario_db3_reachable) as (H1 & _).
  destruct (list_documents_owner_newest_first Model.hashpw Scenario.db3 7
              scenario_db3_reachable) as (_ & _ & H3 & _).
  split; [exact H1|]. apply H3.
  intros d [<- | [<- | [<- | []]]]; discriminate.
Defined.

(** C9 on the scenario: a foreign owner, a missing id, the owner. *)
Lemma delete_document_owner_scoped_witness :
  reachable Model.hashpw Scenario.db3
  /\ delete_document Scenario.db3 1 2 = Scenario.db3
  /\ delete_document Scenario.db3 9 1 = Scenario.db3
  /\ ~ In 1 (map v_id (list_documents (delete_document Scenario.db3 1 1) 1)).
Proof.
  split; [exact scenario_db3_reachable|].
  destruct (delete_document_owner_scoped Model.hashpw Scenario.db3 1 2
              scenario_db3_reachable) as (_ & _ & Hforeign & _).
  destruct (delete_document_owner_scoped Model.hashpw Scenario.db3 9 1
              scenario_db3_reachable) as (_ & Hnone & _).
  destruct (delete_document_owner_scoped Model.hashpw Scenario.db3 1 1
              scenario_db3_reachable) as (_ & _ & _ & Hown).
  split; [|split].
  - apply (Hforeign (mk_doc 1 1 (Some "a.txt") (Some "text/plain") "first"
                       "2024-01-02T10:00:00"));
      [now left | reflexivity | discriminate].
  - apply Hnone. intros [H | [H | [H | []]]]; discriminate.
  - destruct (Hown (mk_doc 1 1 (Some "a.txt") (Some "text/plain") "first"
                      "2024-01-02T10:00:00"))
      as (_ & _ & H & _); [now left | reflexivity | reflexivity |].
    apply H.
Defined.

(** C4 fails on empty content: [save_document] stores it. *)
Lemma save_document_empty_content_counterexample :
  documents (save_document (init_db None) 1 "" None None "2024-01-02T10:00:00")
  = [mk_doc 1 1 None None "" "2024-01-02T10:00:00"].
Proof. reflexivity. Qed.

(** C4 on the scenario: empty content goes through [save_document] and is
    stopped by the button handler. *)
Lemma save_document_persists_any_content_witness :
  reachable Model.hashpw Scenario.db3
  /\ documents (save_document Scenario.db3 1 "" None None "2024-01-03T10:00:00")
     = (documents Scenario.db3
        ++ [mk_doc 4 1 None None "" "2024-01-03T10:00:00"])%list
  /\ save_button Scenario.db3 1 "   " "" None None "2024-01-03T10:00:00"
     = (Scenario.db3,
        (false, "No content to save. Paste text or upload a file first.")).
Proof.
  split; [exact scenario_db3_reachable|].
  destruct (save_document_persists_any_content Model.hashpw Scenario.db3 1 ""
              None None "2024-01-03T10:00:00" scenario_db3_reachable)
    as (H1 & _ & _ & _ & H5 & _).
  split; [exact H1 | now apply H5].
Defined.

(** ** Further properties of the database helpers *)

Lemma find_app_some {A} (p : A -> bool) (l l' : list A) (a : A) :
  find p l = Some a -> find p (l ++ l') = Some a.
Proof.
  induction l as [|x l IH]; simpl; [discriminate|].
  destruct (p x); [trivial | exact IH].
Qed.

Lemma find_unique_key {A} (f : A -> string) (l : list A) (u : A) :
  NoDup (map f l) -> In u l ->
  find (fun x => f x =? f u)%string l = Some u.
Proof.
  induction l as [|a l IH]; simpl; [tauto|].
  intros Hnd Hin. inversion Hnd as [|? ? Hna Hnd']; subst.
  destruct Hin as [<- | Hin]; [now rewrite String.eqb_refl|].
  destruct (f a =? f u)%string eqn:E; [|now apply IH].
  apply String.eqb_eq in E. exfalso. apply Hna. rewrite E. now apply in_map.
Qed.

Lemma token_differs_false (stored : option string) (t : string) :
  token_differs stored t = false -> stored = Some t.
Proof.
  destruct stored as [s|]; simpl; [|discriminate].
  intros H. apply negb_false_iff, String.eqb_eq in H. now subst.
Qed.

Lemma map_update_key (e : string) (set : user_row -> user_row)
    (rows : list user_row) :
  (forall u, user_key (set u) = user_key u) ->
  map user_key
    (map (fun u => if (u_email u =? e)%string then set u else u) rows)
  = map user_key rows.
Proof.
  intros Hset. rewrite map_map. apply map_ext. intros u.
  destruct (u_email u =? e)%string; now rewrite ?Hset.
Qed.

Section MoreHelpers.

Variable hashpw : string -> string -> string.
Variable checkpw : string -> string -> outcome bool.

Lemma run_user_keys (c : call) (db : DB) :
  exists rest,
    map user_key (users (run hashpw c db))
    = (map user_key (users db) ++ rest)%list.
Proof.
  destruct c; simpl; try (exists []; now rewrite app_nil_r).
  - rewrite add_user_cases.
    destruct (Str.is_empty email || Str.is_empty password);
      [exists []; now rewrite app_nil_r|].
    destruct (existsb _ (users db)); [exists []; now rewrite app_nil_r|].
    simpl. rewrite map_app. now eexists.
  - exists []. rewrite app_nil_r. unfold create_reset_token, update_users.
    destruct (Nat.eqb _ 0); simpl; now apply map_update_key.
  - exists []. rewrite app_nil_r. unfold reset_password, update_users.
    destruct (select_user db (normalize email)); [|reflexivity].
    destruct (token_differs _ token); [reflexivity|].
    simpl. now apply map_update_key.
Qed.

Lemma run_all_user_keys (cs : list call) (db : DB) :
  exists rest,
    map user_key (users (run_all hashpw cs db))
    = (map user_key (users db) ++ rest)%list.
Proof.
  unfold run_all. revert db. induction cs as [|c cs IH]; intros db; simpl.
  - exists []. now rewrite app_nil_r.
  - destruct (IH (run hashpw c db)) as [r1 H1].
    destruct (run_user_keys c db) as [r2 H2].
    exists (r2 ++ r1)%list. now rewrite H1, H2, app_assoc.
Qed.

(** No run of the helpers removes a user or changes the id, the email or the
    creation time of one: these columns of the table after the run start with
    the same columns before it, in the same order.  So every user that was
    stored is still stored under the same id and email. *)
Theorem users_never_removed (cs : list call) (db : DB) :
  (exists rest,
     map user_key (users (run_all hashpw cs db))
     = (map user_key (users db) ++ rest)%list)
  /\ (forall u, In u (users db) ->
        exists u', In u' (users (run_all hashpw cs db))
                   /\ u_id u' = u_id u /\ u_email u' = u_email u
                   /\ u_created_at u' = u_created_at u).
Proof.
  split; [apply run_all_user_keys|].
  intros u Hu. destruct (run_all_user_keys cs db) as [rest H].
  assert (Hk : In (user_key u) (map user_key (users (run_all hashpw cs db)))).
  { rewrite H. apply in_or_app. left. now apply in_map. }
  apply in_map_iff in Hk as (u' & Hk & Hin).
  exists u'. unfold user_key in Hk. injection Hk as H1 H2 H3. now repeat split.
Qed.

(** A stored password hash changes in one way only: by [reset_password] for
    the row's email, with the token the row holds.  Registration, token
    issuance, a reset with another token and the document helpers leave every
    stored hash as it is. *)
Theorem password_hash_changes_only_by_reset (c : call) (db : DB) (e : string)
    (u u' : user_row) :
  select_user db e = Some u ->
  select_user (run hashpw c db) e = Some u' ->
  u_password_hash u' <> u_password_hash u ->
  exists e0 t p salt,
    c = ResetPassword e0 t p salt /\ normalize e0 = e
    /\ u_reset_token u = Some t /\ u_password_hash u' = hashpw p salt.
Proof.
  intros Hu Hu' Hne. destruct c; simpl in Hu'; try congruence.
  - exfalso. rewrite add_user_cases in Hu'.
    destruct (Str.is_empty email || Str.is_empty password); [simpl in Hu'; congruence|].
    destruct (existsb _ (users db)); [simpl in Hu'; congruence|].
    simpl in Hu'. unfold select_user in Hu, Hu'. simpl in Hu'.
    rewrite (find_app_some _ _ _ _ Hu) in Hu'. congruence.
  - exfalso. rewrite create_reset_token_cases in Hu'.
    destruct (select_user db (normalize email)); [|simpl in Hu'; congruence].
    cbn [fst] in Hu'. rewrite select_user_update in Hu' by reflexivity.
    rewrite Hu in Hu'. simpl in Hu'. injection Hu' as <-.
    apply Hne. now destruct (u_email u =? normalize email)%string.
  - destruct (select_user db (normalize email)) as [row|] eqn:Hrow.
    2: { unfold reset_password in Hu'. rewrite Hrow in Hu'. simpl in Hu'.
         congruence. }
    destruct (token_differs (u_reset_token row) token) eqn:Ht.
    { rewrite (reset_password_mismatch hashpw db email token new_password salt
                 row Hrow Ht) in Hu'. simpl in Hu'. congruence. }
    apply token_differs_false in Ht.
    rewrite (reset_password_match hashpw db email token new_password salt row
               Hrow Ht) in Hu'.
    cbn [fst] in Hu'. rewrite select_user_update in Hu' by reflexivity.
    rewrite Hu in Hu'. simpl in Hu'. injection Hu' as <-.
    destruct (u_email u =? normalize email)%string eqn:E; [|congruence].
    apply String.eqb_eq in E.
    destruct (select_user_email db e u Hu) as [_ He].
    assert (Hsame : row = u) by (rewrite <- E, He, Hu in Hrow; congruence).
    subst row. exists email, token, new_password, salt.
    repeat split; congruence.
  - exfalso. unfold select_user in Hu, Hu'. simpl in Hu'. congruence.
  - exfalso. unfold select_user in Hu, Hu'. simpl in Hu'. congruence.
Qed.

End MoreHelpers.

Section MoreCredentials.

Variable hashpw : string -> string -> string.
Variable checkpw : string -> string -> outcome bool.

(** Asking for a reset token does not touch the login: after
    [create_reset_token], for whatever email and whether or not a row was
    found, [verify_user] answers every email and password as before, so the
    current password keeps working until the token is redeemed. *)
Theorem create_reset_token_keeps_login (db : DB) (e t e' p : string) :
  verify_user checkpw (fst (create_reset_token db e t)) e' p
  = verify_user checkpw db e' p.
Proof.
  rewrite create_reset_token_cases.
  destruct (select_user db (normalize e)) as [u0|]; [|reflexivity].
  cbn [fst]. unfold verify_user.
  rewrite select_user_update by reflexivity.
  destruct (select_user db (normalize e')) as [u|]; [|reflexivity]. simpl.
  now destruct (u_email u =? normalize e)%string.
Qed.

(** The email [verify_user] returns is the stored, normalized one, and it is
    a fixed point of the lookup: signing in again with the returned email and
    the same password returns the same user, and that user is a row of the
    table. *)
Theorem verify_user_returns_stored_email (db : DB) (e p : string)
    (s : session_user) :
  verify_user checkpw db e p = Some s ->
  s_email s = normalize e
  /\ verify_user checkpw db (s_email s) p = Some s
  /\ exists u, In u (users db) /\ u_id u = s_id s /\ u_email u = s_email s.
Proof.
  unfold verify_user.
  destruct (select_user db (normalize e)) as [u|] eqn:Hu; [|discriminate].
  destruct (checkpw p (u_password_hash u)) as [[|]|] eqn:Hc; try discriminate.
  intros H. injection H as <-. simpl.
  destruct (select_user_email db (normalize e) u Hu) as [Hin He].
  split; [exact He|]. split.
  - now rewrite He, normalize_idem, Hu, Hc, He.
  - now exists u.
Qed.

(** In every reachable state each stored user is the row its own email finds:
    no row is hidden behind another one, and the stored email is already in
    normal form, so typing it as stored reaches the row. *)
Theorem stored_user_found_by_email (db : DB) (u : user_row) :
  reachable hashpw db -> In u (users db) ->
  select_user db (normalize (u_email u)) = Some u
  /\ normalize (u_email u) = u_email u.
Proof.
  intros Hr Hu. destruct (reachable_ok hashpw db Hr) as [[Hnd Hnorm _ _] _].
  assert (Hn : normalize (u_email u) = u_email u).
  { rewrite Forall_forall in Hnorm. apply Hnorm. now apply in_map. }
  split; [|exact Hn]. rewrite Hn. unfold select_user.
  now apply (find_unique_key u_email).
Qed.

End MoreCredentials.

(** ** Further properties of the document helpers *)

Lemma filter_idem {A} (p : A -> bool) (l : list A) :
  filter p (filter p l) = filter p l.
Proof.
  induction l as [|a l IH]; simpl; [reflexivity|].
  destruct (p a) eqn:E; simpl; [now rewrite E, IH | exact IH].
Qed.

Lemma filter_comm {A} (p q : A -> bool) (l : list A) :
  filter p (filter q l) = filter q (filter p l).
Proof.
  induction l as [|a l IH]; simpl; [reflexivity|].
  destruct (q a) eqn:Eq, (p a) eqn:Ep; simpl; rewrite ?Eq, ?Ep, IH; reflexivity.
Qed.

Section MoreDocuments.

Variable hashpw : string -> string -> string.

Lemma run_documents_cases (c : call) (db : DB) (d : doc_row) :
  (In d (documents db) ->
   In d (documents (run hashpw c db))
   \/ c = DeleteDocument (d_id d) (d_user_id d))
  /\ (In d (documents (run hashpw c db)) ->
      In d (documents db)
      \/ (c = SaveDocument (d_user_id d) (d_content d) (d_filename d)
                (d_mime d) (d_created_at d)
          /\ d_id d = documents_seq db + 1)).
Proof.
  destruct c; simpl.
  - destruct (add_user_documents hashpw db email password salt now) as [-> _].
    tauto.
  - tauto.
  - destruct (create_reset_token_documents db email token) as [-> _]. tauto.
  - destruct (reset_password_documents hashpw db email token new_password salt)
      as [-> _]. tauto.
  - split; [intros H; left; apply in_or_app; now left|].
    intros H. apply in_app_or in H as [H | [<- | []]]; [now left | right].
    now split.
  - tauto.
  - split.
    + intros H.
      destruct ((d_id d =? doc_id) && (d_user_id d =? user_id)) eqn:E.
      * right. apply andb_true_iff in E as [E1 E2].
        apply Z.eqb_eq in E1, E2. now subst.
      * left. apply filter_In. split; [exact H | now rewrite E].
    + intros H. left. now apply filter_In in H as [H _].
Qed.

(** The [documents] table changes by the owner's hand only.  A stored
    document survives every call, unchanged, except [delete_document] with
    its own id and its own owner; and a document that is stored after a call
    was stored before it or is the one a [save_document] just wrote, under
    the next id of the table. *)
Theorem documents_change_only_by_owner (c : call) (db : DB) (d : doc_row) :
  (In d (documents db) ->
   In d (documents (run hashpw c db))
   \/ c = DeleteDocument (d_id d) (d_user_id d))
  /\ (In d (documents (run hashpw c db)) ->
      In d (documents db)
      \/ (c = SaveDocument (d_user_id d) (d_content d) (d_filename d)
                (d_mime d) (d_created_at d)
          /\ d_id d = documents_seq db + 1)).
Proof. apply run_documents_cases. Qed.

Lemma run_documents_seq (c : call) (db : DB) :
  documents_seq db <= documents_seq (run hashpw c db).
Proof.
  destruct c; simpl; try lia.
  - destruct (add_user_documents hashpw db email password salt now) as [_ ->].
    lia.
  - destruct (create_reset_token_documents db email token) as [_ ->]. lia.
  - destruct (reset_password_documents hashpw db email token new_password salt)
      as [_ ->]. lia.
Qed.

Lemma run_all_reachable (cs : list call) (db : DB) :
  reachable hashpw db -> reachable hashpw (run_all hashpw cs db).
Proof.
  unfold run_all. revert db. induction cs as [|c cs IH]; intros db Hr; simpl.
  - exact Hr.
  - apply IH. now apply reachable_run.
Qed.

Lemma run_all_new_documents (cs : list call) (db : DB) (d : doc_row) :
  In d (documents (run_all hashpw cs db)) ->
  In d (documents db) \/ documents_seq db < d_id d.
Proof.
  unfold run_all. revert db. induction cs as [|c cs IH]; intros db; simpl.
  - now left.
  - intros H. pose proof (run_documents_seq c db) as Hseq.
    destruct (IH _ H) as [Hin | Hlt]; [|right; lia].
    destruct (run_documents_cases c db d) as [_ Hnew].
    destruct (Hnew Hin) as [Hold | [_ Hid]]; [now left | right; lia].
Qed.

(** An id is never given out twice.  Once a document is stored in a reachable
    state, whatever calls follow, deletions of that document included, a
    stored document with its id is that document: later saves get larger ids. *)
Theorem document_id_never_reused (db : DB) (d0 : doc_row) (cs : list call)
    (d : doc_row) :
  reachable hashpw db -> In d0 (documents db) ->
  In d (documents (run_all hashpw cs db)) -> d_id d = d_id d0 -> d = d0.
Proof.
  intros Hr Hd0 Hd Hid. destruct (reachable_ok hashpw db Hr) as [_ Hok].
  destruct (run_all_new_documents cs db d Hd) as [Hin | Hlt].
  - now apply (documents_id_unique db d0 d Hok).
  - exfalso. destruct Hok as [_ Hb]. rewrite Forall_forall in Hb.
    specialize (Hb (d_id d0) (in_map d_id _ _ Hd0)). lia.
Qed.

(** Saving a document and deleting it again, as its owner, in a reachable
    state gives back the table of documents as it was, but not the counter:
    the id stays used and the next save gets the one after it. *)
Theorem save_then_delete (db : DB) (uid : Z) (c : string) (f m : option string)
    (now : string) :
  reachable hashpw db ->
  let db' := delete_document (save_document db uid c f m now)
               (documents_seq db + 1) uid in
  documents db' = documents db
  /\ users db' = users db
  /\ documents_seq db' = documents_seq db + 1
  /\ (forall uid2 c2 f2 m2 now2,
        documents (save_document db' uid2 c2 f2 m2 now2)
        = (documents db
           ++ [mk_doc (documents_seq db + 2) uid2 f2 m2 c2 now2])%list).
Proof.
  intros Hr db'. destruct (reachable_ok hashpw db Hr) as [_ [_ Hb]].
  assert (Hdocs : documents db' = documents db).
  { subst db'. unfold delete_document, save_document. simpl.
    rewrite filter_app. simpl. rewrite !Z.eqb_refl. simpl.
    rewrite app_nil_r. apply filter_all. intros x Hx.
    rewrite Forall_forall in Hb. specialize (Hb (d_id x) (in_map d_id _ _ Hx)).
    destruct (d_id x =? documents_seq db + 1) eqn:E; [|reflexivity].
    apply Z.eqb_eq in E. lia. }
  split; [exact Hdocs|]. split; [reflexivity|]. split; [reflexivity|].
  intros uid2 c2 f2 m2 now2.
  change (documents (save_document db' uid2 c2 f2 m2 now2))
    with (documents db'
          ++ [mk_doc (documents_seq db' + 1) uid2 f2 m2 c2 now2])%list.
  rewrite Hdocs.
  change (documents_seq db') with (documents_seq db + 1).
  now replace (documents_seq db + 1 + 1) with (documents_seq db + 2) by lia.
Qed.

(** Deleting twice is deleting once, and two deletions can be done in either
    order. *)
Theorem delete_document_idempotent_commutes (db : DB) (i u j v : Z) :
  delete_document (delete_document db i u) i u = delete_document db i u
  /\ delete_document (delete_document db i u) j v
     = delete_document (delete_document db j v) i u.
Proof.
  unfold delete_document, with_documents. simpl. split; f_equal.
  - apply filter_idem.
  - apply filter_comm.
Qed.

(** The helpers of the credential store never write to [documents] or its
    counter, and the helpers of the document repository never write to
    [users] or its counter. *)
Theorem helpers_keep_to_their_table (c : call) (db : DB) :
  match c with
  | SaveDocument _ _ _ _ _ | DeleteDocument _ _ =>
      users (run hashpw c db) = users db
      /\ users_seq (run hashpw c db) = users_seq db
  | _ =>
      documents (run hashpw c db) = documents db
      /\ documents_seq (run hashpw c db) = documents_seq db
  end.
Proof.
  destruct c; simpl; try (split; reflexivity).
  - apply add_user_documents.
  - apply create_reset_token_documents.
  - apply reset_password_documents.
Qed.

End MoreDocuments.

(** ** The page: sessions and the documents stored through it *)

Lemma or_default_nonempty (x : option string) (d : string) :
  d <> "" -> or_default x d <> "".
Proof.
  intros Hd. destruct x as [s|]; simpl; [|exact Hd].
  destruct s; simpl; [exact Hd | discriminate].
Qed.

(** [save_button] by cases: nothing to save, or one [save_document] with a
    trimmed, non-empty content. *)
Lemma save_button_cases (db : DB) (uid : Z) (paste extracted : string)
    (fn mi : option string) (now : string) :
  save_button db uid paste extracted fn mi now
  = (db, (false, "No content to save. Paste text or upload a file first."))
  \/ exists content,
       content <> "" /\ Str.strip content = content
       /\ (content = Str.strip paste \/ content = Str.strip extracted)
       /\ save_button db uid paste extracted fn mi now
          = (save_document db uid content
               (Some (or_default fn "pasted_text.txt"))
               (Some (or_default mi "text/plain")) now,
             (true, "Document saved to your library.")).
Proof.
  unfold save_button.
  set (final := if Str.is_empty (Str.strip paste)
                   && negb (Str.is_empty extracted)
                then Str.strip extracted else Str.strip paste).
  destruct (Str.is_empty final) eqn:E; [now left|]. right.
  exists final. split; [now apply is_empty_false|].
  subst final.
  destruct (Str.is_empty (Str.strip paste) && negb (Str.is_empty extracted));
    (split; [apply strip_idem | split; [tauto | reflexivity]]).
Qed.

Lemma verify_user_row (checkpw : string -> string -> outcome bool) (db : DB)
    (e p : string) (s : session_user) :
  verify_user checkpw db e p = Some s ->
  exists u, In u (users db) /\ u_id u = s_id s /\ u_email u = s_email s.
Proof.
  unfold verify_user.
  destruct (select_user db (normalize e)) as [u|] eqn:Hu; [|discriminate].
  destruct (checkpw p (u_password_hash u)) as [[|]|]; try discriminate.
  intros H. injection H as <-. exists u.
  now destruct (select_user_email db (normalize e) u Hu).
Qed.

Lemma run_keeps_user (hashpw : string -> string -> string) (c : call) (db : DB)
    (u : user_row) :
  In u (users db) ->
  exists u', In u' (users (run hashpw c db))
             /\ u_id u' = u_id u /\ u_email u' = u_email u.
Proof.
  intros Hu. destruct (run_user_keys hashpw c db) as [rest H].
  assert (Hk : In (user_key u) (map user_key (users (run hashpw c db)))).
  { rewrite H. apply in_or_app. left. now apply in_map. }
  apply in_map_iff in Hk as (u' & Hk & Hin).
  exists u'. unfold user_key in Hk. injection Hk as H1 H2 H3. now repeat split.
Qed.

Section PageProperties.

Variable hashpw : string -> string -> string.
Variable checkpw : string -> string -> outcome bool.
Variable decode : string -> string.
Variable DocxDocument : option (string -> raises (list string)).
Variable PdfReader : option (string -> raises (list (raises (option string)))).

(** What holds of every state of a session: the signed-in user is a stored
    user, and every stored document is well formed and owned by one. *)
Lemma page_step_ok (ev : event) (a : app) :
  ((forall s, app_user a = Some s ->
      exists u, In u (users (app_db a))
                /\ u_id u = s_id s /\ u_email u = s_email s)
   /\ (forall d, In d (documents (app_db a)) ->
         document_well_formed d
         /\ exists u, In u (users (app_db a)) /\ u_id u = d_user_id d)) ->
  (forall s,
     app_user (fst (handle hashpw checkpw decode DocxDocument PdfReader ev a))
     = Some s ->
     exists u,
       In u (users (app_db (fst (handle hashpw checkpw decode DocxDocument
                                   PdfReader ev a))))
               /\ u_id u = s_id s /\ u_email u = s_email s)
  /\ (forall d,
        In d (documents (app_db (fst (handle hashpw checkpw decode
                                        DocxDocument PdfReader ev a)))) ->
        document_well_formed d
        /\ exists u,
             In u (users (app_db (fst (handle hashpw checkpw decode
                                         DocxDocument PdfReader ev a))))
                     /\ u_id u = d_user_id d).
Proof.
  intros [Hs Hd].
  assert (Hcred : forall c,
            documents (run hashpw c (app_db a)) = documents (app_db a) ->
            (forall s, None = Some s ->
               exists u, In u (users (run hashpw c (app_db a)))
                         /\ u_id u = s_id s /\ u_email u = s_email s)
            /\ (forall d, In d (documents (run hashpw c (app_db a))) ->
                  document_well_formed d
                  /\ exists u, In u (users (run hashpw c (app_db a)))
                               /\ u_id u = d_user_id d)).
  { intros c Hdocs. split; [discriminate|]. intros d Hin. rewrite Hdocs in Hin.
    destruct (Hd d Hin) as [Hwf (u & Hu & Hid)]. split; [exact Hwf|].
    destruct (run_keeps_user hashpw c (app_db a) u Hu) as (u' & Hu' & Hid' & _).
    exists u'. split; [exact Hu' | congruence]. }
  unfold handle. destruct (app_user a) as [s0|] eqn:Hsession.
  - destruct ev; try (simpl; rewrite ?Hsession; now split).
    + destruct (fst (extract_upload decode DocxDocument PdfReader uploaded))
        as [[extracted fn] mi].
      destruct (save_button_cases (app_db a) (s_id s0) paste_text extracted
                  fn mi now) as [-> | (content & Hne & Hstrip & _ & ->)];
        simpl; [now split|].
      split; [intros s Hs'; injection Hs' as <-; now apply Hs|].
      intros d Hin. apply in_app_or in Hin as [Hin | [<- | []]];
        [now apply Hd|].
      split.
      * repeat split; simpl; [exact Hne | exact Hstrip | |].
        -- eexists. split; [reflexivity|]. now apply or_default_nonempty.
        -- eexists. split; [reflexivity|]. now apply or_default_nonempty.
      * destruct (Hs s0 eq_refl) as (u & Hu & Hid & _). now exists u.
    + destruct (find _ (list_documents (app_db a) (s_id s0))) as [row|];
        simpl; [|rewrite Hsession; now split].
      split; [intros s Hs'; injection Hs' as <-; now apply Hs|].
      intros d Hin. apply filter_In in Hin as [Hin _]. now apply Hd.
  - destruct ev; try (simpl; rewrite ?Hsession; now split).
    + destruct (verify_user checkpw (app_db a) email password) as [u|] eqn:Hv;
        simpl; [|rewrite Hsession; now split].
      split; [|exact Hd]. intros s Hs'. injection Hs' as <-.
      now apply (verify_user_row checkpw (app_db a) email password).
    + apply (Hcred (AddUser email password salt now)).
      apply (add_user_documents hashpw).
    + apply (Hcred (CreateResetToken email token)).
      apply create_reset_token_documents.
    + apply (Hcred (ResetPassword email token new_password salt)).
      apply (reset_password_documents hashpw).
Qed.

Lemma page_reachable_ok (a : app) :
  page_reachable hashpw checkpw decode DocxDocument PdfReader a ->
  (forall s, app_user a = Some s ->
     exists u, In u (users (app_db a))
               /\ u_id u = s_id s /\ u_email u = s_email s)
  /\ (forall d, In d (documents (app_db a)) ->
        document_well_formed d
        /\ exists u, In u (users (app_db a)) /\ u_id u = d_user_id d).
Proof.
  induction 1 as [|ev a Hr IH].
  - split; [discriminate | intros d []].
  - now apply page_step_ok.
Qed.

(** In every state of a session the signed-in user, when there is one, is a
    stored user with that id and that email. *)
Theorem session_user_is_stored (a : app) (s : session_user) :
  page_reachable hashpw checkpw decode DocxDocument PdfReader a -> app_user a = Some s ->
  exists u, In u (users (app_db a)) /\ u_id u = s_id s /\ u_email u = s_email s.
Proof. intros Hr. now apply page_reachable_ok. Qed.

(** Every document stored through the page has a content that is not empty
    and is trimmed, a file name and a mime type that are not empty, and an
    owner who is a stored user, although [save_document] and the schema
    enforce none of this. *)
Theorem page_documents_well_formed (a : app) (d : doc_row) :
  page_reachable hashpw checkpw decode DocxDocument PdfReader a -> In d (documents (app_db a)) ->
  document_well_formed d
  /\ exists u, In u (users (app_db a)) /\ u_id u = d_user_id d.
Proof. intros Hr. now apply page_reachable_ok. Qed.

(** One interaction adds or removes documents of the signed-in user only:
    every other document is stored after it exactly when it was stored before
    it, and without a signed-in user no document changes at all. *)
Theorem page_touches_own_documents_only (ev : event) (a : app) (d : doc_row) :
  (In d (documents (app_db a)) <->
   In d (documents (app_db (fst (handle hashpw checkpw decode DocxDocument
                                   PdfReader ev a)))))
  \/ exists s, app_user a = Some s /\ d_user_id d = s_id s.
Proof.
  unfold handle. destruct (app_user a) as [s0|] eqn:Hsession.
  - destruct ev; try (left; simpl; tauto).
    + destruct (fst (extract_upload decode DocxDocument PdfReader uploaded))
        as [[extracted fn] mi].
      destruct (save_button_cases (app_db a) (s_id s0) paste_text extracted
                  fn mi now) as [-> | (content & _ & _ & _ & ->)];
        simpl; [left; tauto|].
      destruct (Z.eq_dec (d_user_id d) (s_id s0)) as [E | E];
        [right; now exists s0 | left].
      rewrite in_app_iff. simpl. split; [tauto|].
      intros [H | [<- | []]]; [exact H | now destruct E].
    + destruct (find _ (list_documents (app_db a) (s_id s0))) as [row|];
        simpl; [|left; tauto].
      destruct (Z.eq_dec (d_user_id d) (s_id s0)) as [E | E];
        [right; now exists s0 | left].
      rewrite filter_In. split; [|tauto]. intros H. split; [exact H|].
      apply Z.eqb_neq in E. now rewrite E, andb_false_r.
  - left. destruct ev; simpl; try tauto.
    + now destruct (verify_user checkpw (app_db a) email password).
    + now destruct (add_user_documents hashpw (app_db a) email password salt
                      now) as [-> _].
    + now destruct (create_reset_token_documents (app_db a) email token)
        as [-> _].
    + now destruct (reset_password_documents hashpw (app_db a) email token
                      new_password salt) as [-> _].
Qed.

(** Pasted text wins over an uploaded file, but the document takes the
    file's name and type: when the text area holds something besides
    whitespace, the save button stores the trimmed pasted text for the
    signed-in user, under the name and the type of the upload when one was
    read, and under [pasted_text.txt] and [text/plain] where the upload gave
    none. *)
Theorem page_save_pasted_text_wins (a : app) (s : session_user)
    (paste_text : string) (uploaded : option uploaded_file) (now : string) :
  app_user a = Some s -> Str.strip paste_text <> "" ->
  let '(_, filename, mime) :=
    fst (extract_upload decode DocxDocument PdfReader uploaded) in
  fst (handle hashpw checkpw decode DocxDocument PdfReader
         (SaveDocumentClick paste_text uploaded now) a)
  = mk_app (save_document (app_db a) (s_id s) (Str.strip paste_text)
              (Some (or_default filename "pasted_text.txt"))
              (Some (or_default mime "text/plain")) now)
           (Some s).
Proof.
  intros Hs Hne. unfold handle. rewrite Hs.
  destruct (fst (extract_upload decode DocxDocument PdfReader uploaded))
    as [[extracted fn] mi].
  unfold save_button. apply is_empty_false in Hne. rewrite Hne. simpl.
  now rewrite Hne.
Qed.

End PageProperties.

(** ** Shortened texts and uploads *)

Lemma string_app_assoc (a b c : string) : (a ++ b) ++ c = a ++ (b ++ c).
Proof. induction a as [|x a IH]; simpl; [reflexivity | now rewrite IH]. Qed.

Lemma string_app_nil_r (a : string) : a ++ "" = a.
Proof. induction a as [|x a IH]; simpl; [reflexivity | now rewrite IH]. Qed.

Lemma string_length_app (a b : string) :
  String.length (a ++ b) = (String.length a + String.length b)%nat.
Proof. induction a as [|x a IH]; simpl; [reflexivity | now rewrite IH]. Qed.

Lemma substring_0_length (n : nat) (s : string) :
  String.length (substring 0 n s) = Nat.min n (String.length s).
Proof.
  revert s. induction n as [|n IH]; intros [|c s]; simpl; try reflexivity.
  now rewrite IH.
Qed.

Lemma substring_0_all (n : nat) (s : string) :
  (String.length s <= n)%nat -> substring 0 n s = s.
Proof.
  revert s. induction n as [|n IH]; intros [|c s]; simpl; try reflexivity.
  - lia.
  - intros H. rewrite IH; [reflexivity | lia].
Qed.

Lemma substring_0_prefix (n : nat) (s : string) :
  exists rest,
    s = substring 0 n s ++ rest
    /\ String.length rest = (String.length s - n)%nat.
Proof.
  revert s. induction n as [|n IH]; intros [|c s]; simpl.
  - now exists "".
  - now exists (String c s).
  - now exists "".
  - destruct (IH s) as (rest & H1 & H2). exists rest.
    split; [now rewrite <- H1 | exact H2].
Qed.

(** The shortened text is never more than three characters longer than its
    limit.  A text within the limit is shown as it is; a longer one is cut to
    its first [n] characters, followed by three dots, and something of it
    is left out. *)
Theorem preview_bounds (n : nat) (s : string) :
  (String.length (preview n s) <= n + 3)%nat
  /\ ((String.length s <= n)%nat -> preview n s = s)
  /\ ((n < String.length s)%nat ->
      preview n s = substring 0 n s ++ "..."
      /\ String.length (preview n s) = (n + 3)%nat
      /\ exists rest, rest <> "" /\ s = substring 0 n s ++ rest).
Proof.
  unfold preview. destruct (n <? String.length s)%nat eqn:E.
  - apply Nat.ltb_lt in E.
    assert (Hlen : String.length (substring 0 n s ++ "...") = (n + 3)%nat).
    { rewrite string_length_app, substring_0_length. simpl. lia. }
    split; [lia|]. split; [lia|]. intros _. split; [reflexivity|].
    split; [exact Hlen|].
    destruct (substring_0_prefix n s) as (rest & H1 & H2).
    exists rest. split; [|exact H1]. intros ->. simpl in H2. lia.
  - apply Nat.ltb_ge in E. rewrite string_app_nil_r.
    rewrite substring_0_all by exact E. split; [lia|]. split; [reflexivity|].
    lia.
Qed.

Lemma endswith_empty (suffix : string) :
  endswith "" suffix = true -> suffix = "".
Proof. destruct suffix; simpl; [reflexivity | discriminate]. Qed.

Lemma endswith_last_char (s suffix : string) :
  suffix <> "" -> endswith s suffix = true -> last_char s = last_char suffix.
Proof.
  intros Hne. induction s as [|c s IH]; intros H.
  - now apply endswith_empty in H.
  - change (endswith (String c s) suffix)
      with ((String c s =? suffix)%string || endswith s suffix) in H.
    apply orb_true_iff in H as [H | H].
    + apply String.eqb_eq in H. now rewrite H.
    + rewrite <- (IH H). destruct s as [|c' s]; [|reflexivity].
      now apply endswith_empty in H.
Qed.

(** Two suffixes that end in different characters exclude each other. *)
Lemma endswith_exclusive (s a b : string) :
  a <> "" -> b <> "" -> last_char a <> last_char b ->
  endswith s a = true -> endswith s b = false.
Proof.
  intros Ha Hb Hne H. destruct (endswith s b) eqn:E; [|reflexivity].
  exfalso. apply Hne.
  now rewrite <- (endswith_last_char s a Ha H), (endswith_last_char s b Hb E).
Qed.

Lemma join_lines_cons (p : string) (rest : list string) :
  rest <> [] ->
  join_lines (p :: rest) = p ++ String "010"%char (join_lines rest).
Proof. now destruct rest. Qed.

Lemma join_lines_contains (t : string) (parts : list string) :
  In t parts -> exists pre post, join_lines parts = pre ++ t ++ post.
Proof.
  induction parts as [|p rest IH]; [intros []|].
  intros [-> | Hin].
  - destruct rest as [|q rest].
    + exists "", "". simpl. now rewrite string_app_nil_r.
    + exists "", (String "010"%char (join_lines (q :: rest))). reflexivity.
  - destruct (IH Hin) as (pre & post & H).
    assert (Hne : rest <> []) by (intros ->; destruct Hin).
    rewrite (join_lines_cons p rest Hne), H.
    exists (p ++ String "010"%char pre), post.
    now rewrite string_app_assoc.
Qed.

Lemma join_lines_blank (parts : list string) :
  Forall (fun p => p = "") parts -> Str.strip (join_lines parts) = "".
Proof.
  intros H. unfold Str.strip.
  assert (Hl : Str.lstrip (join_lines parts) = "").
  { induction H as [|p rest Hp Hrest IH]; [reflexivity|]. subst p.
    destruct rest as [|q rest]; [reflexivity|].
    rewrite join_lines_cons by discriminate. simpl. exact IH. }
  now rewrite Hl.
Qed.

Section UploadProperties.

Variable hashpw : string -> string -> string.
Variable checkpw : string -> string -> outcome bool.
Variable decode : string -> string.
Variable DocxDocument : option (string -> raises (list string)).
Variable PdfReader : option (string -> raises (list (raises (option string)))).

(** [read_text_from_upload] can fail on Word and PDF files only; a file of
    any other name, [.txt] included, is decoded and returned.  A [.docx] file
    without python-docx and a [.pdf] file without PyPDF2 raise the
    [RuntimeError] that says what to install, whatever the file holds; the
    extension counts in any case of letters.  On the page a failed read
    leaves nothing extracted, so the save button with an empty text area
    stores nothing. *)
Theorem read_text_from_upload_failures (f : uploaded_file) :
  let name_lower := Str.lower (uf_name f) in
  (forall e, read_text_from_upload decode DocxDocument PdfReader f = Raise e ->
     endswith name_lower ".docx" = true \/ endswith name_lower ".pdf" = true)
  /\ (endswith name_lower ".docx" = true -> DocxDocument = None ->
      read_text_from_upload decode DocxDocument PdfReader f
      = Raise (RuntimeError
                 "python-docx not installed. Run: pip install python-docx"))
  /\ (endswith name_lower ".pdf" = true -> PdfReader = None ->
      read_text_from_upload decode DocxDocument PdfReader f
      = Raise (RuntimeError "PyPDF2 not installed. Run: pip install PyPDF2"))
  /\ (forall e a s paste_text now,
        read_text_from_upload decode DocxDocument PdfReader f = Raise e ->
        app_user a = Some s -> Str.strip paste_text = "" ->
        handle hashpw checkpw decode DocxDocument PdfReader
          (SaveDocumentClick paste_text (Some f) now) a
        = (a, Some (Error
                      "No content to save. Paste text or upload a file first."))).
Proof.
  cbv zeta. split; [|split; [|split]].
  - intros e. unfold read_text_from_upload.
    destruct (endswith (Str.lower (uf_name f)) ".txt"); [discriminate|].
    destruct (endswith (Str.lower (uf_name f)) ".docx"); [now left|].
    destruct (endswith (Str.lower (uf_name f)) ".pdf"); [now right|].
    discriminate.
  - intros Hd ->. unfold read_text_from_upload.
    rewrite (endswith_exclusive _ ".docx" ".txt"), Hd;
      [reflexivity | discriminate | discriminate | discriminate | exact Hd].
  - intros Hp ->. unfold read_text_from_upload.
    rewrite (endswith_exclusive _ ".pdf" ".txt"),
            (endswith_exclusive _ ".pdf" ".docx"), Hp;
      [reflexivity | discriminate | discriminate | discriminate | exact Hp
       | discriminate | discriminate | discriminate | exact Hp].
  - intros e a s paste_text now He Hs Hp. unfold handle, extract_upload.
    rewrite Hs, He. simpl. unfold save_button. rewrite Hp. simpl.
    now destruct a as [db u]; simpl in *; subst.
Qed.

(** A PDF whose reader opens is always read: a page whose extraction raises
    or gives nothing counts as an empty page, and the text of every other
    page is part of the result, which is the pages' texts joined by line
    breaks.  When no page gives any text the result is line breaks only, and
    the save button with an empty text area stores nothing. *)
Theorem read_text_from_upload_pdf (f : uploaded_file)
    (reader : string -> raises (list (raises (option string))))
    (pages : list (raises (option string))) :
  endswith (Str.lower (uf_name f)) ".pdf" = true ->
  PdfReader = Some reader -> reader (uf_bytes f) = Return pages ->
  read_text_from_upload decode DocxDocument PdfReader f
  = Return (join_lines (map page_text pages), uf_name f,
            or_default (uf_type f) "")
  /\ (forall t, In (Return (Some t)) pages ->
        exists pre post, join_lines (map page_text pages) = pre ++ t ++ post)
  /\ (Forall (fun p => page_text p = "") pages ->
      forall a s paste_text now,
        app_user a = Some s -> Str.strip paste_text = "" ->
        handle hashpw checkpw decode DocxDocument PdfReader
          (SaveDocumentClick paste_text (Some f) now) a
        = (a, Some (Error
                      "No content to save. Paste text or upload a file first."))).
Proof.
  intros Hp Hr Hpages.
  assert (Hread : read_text_from_upload decode DocxDocument PdfReader f
                  = Return (join_lines (map page_text pages), uf_name f,
                            or_default (uf_type f) "")).
  { unfold read_text_from_upload.
    rewrite (endswith_exclusive _ ".pdf" ".txt"),
            (endswith_exclusive _ ".pdf" ".docx"), Hp, Hr, Hpages;
      [reflexivity | discriminate | discriminate | discriminate | exact Hp
       | discriminate | discriminate | discriminate | exact Hp]. }
  split; [exact Hread|]. split.
  - intros t Hin. apply join_lines_contains.
    apply in_map_iff. now exists (Return (Some t)).
  - intros Hblank a s paste_text now Hs Hpaste.
    assert (Hstrip : Str.strip (join_lines (map page_text pages)) = "").
    { apply join_lines_blank. apply Forall_map. exact Hblank. }
    unfold handle, extract_upload. rewrite Hs, Hread. cbn [fst].
    unfold save_button. rewrite Hpaste. cbn [Str.is_empty andb].
    destruct (negb (Str.is_empty (join_lines (map page_text pages))));
      rewrite ?Hstrip; simpl; destruct a; simpl in *; now subst.
Qed.

End UploadProperties.

(** ** The chatbot *)

Lemma training_inner (t : string) (pats tags patterns : list string) :
  fold_left (fun '(tags, patterns) pattern =>
               ((tags ++ [t])%list, (patterns ++ [pattern])%list))
            pats (tags, patterns)
  = ((tags ++ map (fun _ => t) pats)%list, (patterns ++ pats)%list).
Proof.
  revert tags patterns. induction pats as [|p pats IH]; intros tags patterns.
  - simpl. now rewrite !app_nil_r.
  - simpl. rewrite IH, <- !app_assoc. reflexivity.
Qed.

Lemma training_outer (intents : list intent) (tags patterns : list string) :
  fold_left
    (fun acc i =>
       fold_left (fun '(tags, patterns) pattern =>
                    ((tags ++ [i_tag i])%list, (patterns ++ [pattern])%list))
                 (i_patterns i) acc)
    intents (tags, patterns)
  = ((tags ++ flat_map (fun i => map (fun _ => i_tag i) (i_patterns i)) intents)%list,
     (patterns ++ flat_map i_patterns intents)%list).
Proof.
  revert tags patterns.
  induction intents as [|i intents IH]; intros tags patterns; simpl.
  - now rewrite !app_nil_r.
  - rewrite training_inner, IH, <- !app_assoc. reflexivity.
Qed.

Lemma combine_app_same {A B} (l1 l2 : list A) (r1 r2 : list B) :
  List.length l1 = List.length r1 ->
  combine (l1 ++ l2) (r1 ++ r2) = (combine l1 r1 ++ combine l2 r2)%list.
Proof.
  revert r1. induction l1 as [|a l1 IH]; intros [|b r1]; simpl;
    try discriminate; [reflexivity|].
  intros H. now rewrite IH by lia.
Qed.

Lemma combine_const_tag (t : string) (pats : list string) :
  combine (map (fun _ => t) pats) pats = map (fun p => (t, p)) pats.
Proof. induction pats as [|p pats IH]; simpl; [reflexivity | now rewrite IH]. Qed.

(** The training data pairs every pattern with the tag of the intent it
    belongs to and with no other: the two lists have the same length, the
    patterns are those of the intents in the order of the file, and the tag
    at a position is the tag of the intent the pattern at that position came
    from. *)
Theorem training_data_aligned (intents : list intent) :
  List.length (fst (training_data intents))
  = List.length (snd (training_data intents))
  /\ snd (training_data intents) = flat_map i_patterns intents
  /\ combine (fst (training_data intents)) (snd (training_data intents))
     = flat_map (fun i => map (fun p => (i_tag i, p)) (i_patterns i)) intents
  /\ (forall t p,
        In (t, p) (combine (fst (training_data intents))
                     (snd (training_data intents)))
        <-> exists i, In i intents /\ i_tag i = t /\ In p (i_patterns i)).
Proof.
  unfold training_data. rewrite training_outer. simpl.
  assert (Hc : combine
                 (flat_map (fun i => map (fun _ => i_tag i) (i_patterns i))
                    intents)
                 (flat_map i_patterns intents)
               = flat_map (fun i => map (fun p => (i_tag i, p)) (i_patterns i))
                   intents).
  { induction intents as [|i intents IH]; simpl; [reflexivity|].
    rewrite combine_app_same by apply length_map.
    now rewrite combine_const_tag, IH. }
  split; [|split; [reflexivity|split; [exact Hc|]]].
  - clear Hc. induction intents as [|i intents IH]; simpl; [reflexivity|].
    now rewrite !length_app, length_map, IH.
  - intros t p. rewrite Hc, in_flat_map. split.
    + intros (i & Hi & Hin). apply in_map_iff in Hin as (p' & Heq & Hp).
      injection Heq as <- <-. now exists i.
    + intros (i & Hi & <- & Hp). exists i. split; [exact Hi|].
      apply in_map_iff. now exists p.
Qed.

Lemma choice_In {A} (pick : nat) (seq : list A) (r : A) :
  choice pick seq = Return r -> In r seq.
Proof.
  unfold choice.
  destruct (nth_error seq (pick mod List.length seq)) as [a|] eqn:E;
    [|discriminate].
  intros H. injection H as <-. now apply nth_error_In in E.
Qed.

Lemma choice_nonempty {A} (pick : nat) (seq : list A) :
  seq <> [] -> exists r, choice pick seq = Return r.
Proof.
  intros Hne. unfold choice.
  destruct (nth_error seq (pick mod List.length seq)) as [a|] eqn:E;
    [now exists a|].
  exfalso. apply nth_error_None in E.
  assert (List.length seq <> 0)%nat by (destruct seq; simpl; congruence).
  pose proof (Nat.mod_upper_bound pick (List.length seq)). lia.
Qed.

Section ChatbotProperties.

Variable intents : list intent.
Variable classify : string -> Q * string.

Lemma respond_with_tag_In (pick : nat) (t r : string) :
  respond_with_tag intents pick t = Some (Return r) ->
  exists i, In i intents /\ i_tag i = t /\ In r (i_responses i).
Proof.
  unfold respond_with_tag.
  destruct (find _ intents) as [i|] eqn:E; [|discriminate].
  intros H. injection H as H. apply find_some in E as [Hi Ht].
  exists i. repeat split; [exact Hi | now apply String.eqb_eq |].
  now apply choice_In in H.
Qed.

Lemma respond_with_tag_none (pick : nat) (t : string) :
  respond_with_tag intents pick t = None <-> ~ In t (map i_tag intents).
Proof.
  unfold respond_with_tag.
  destruct (find _ intents) as [i|] eqn:E.
  - split; [discriminate|]. intros H. exfalso. apply H.
    apply find_some in E as [Hi Ht]. apply String.eqb_eq in Ht.
    rewrite <- Ht. now apply in_map.
  - split; [|reflexivity]. intros _ Hin.
    apply in_map_iff in Hin as (i & Ht & Hi).
    apply (find_none _ _ E) in Hi. rewrite Ht, String.eqb_refl in Hi.
    discriminate.
Qed.

(** An empty message is answered with one of the two prompts, whatever the
    intents and the classifier are, and never raises. *)
Theorem chatbot_empty_input (pick : nat) :
  get_chatbot_response intents classify pick ""
  = Return "Please enter a message."
  \/ get_chatbot_response intents classify pick ""
     = Return "What can I help you with?".
Proof.
  unfold get_chatbot_response, choice. cbn [Str.is_empty List.length].
  assert (H : (pick mod 2 < 2)%nat) by (apply Nat.mod_upper_bound; lia).
  destruct (pick mod 2)%nat as [|[|k]]; [now left | now right | lia].
Qed.

(** Where an answer to a message comes from.  It is a response of an intent
    of the file whose tag is the predicted one, or is [unknown] when the
    confidence is below one half; or it is the apology, and then no intent
    has the predicted tag. *)
Theorem chatbot_answer_provenance (pick : nat) (input_text r : string) :
  input_text <> "" ->
  get_chatbot_response intents classify pick input_text = Return r ->
  (exists i, In i intents /\ In r (i_responses i)
             /\ (i_tag i = snd (classify input_text)
                 \/ (i_tag i = "unknown"
                     /\ (fst (classify input_text) < 1 # 2)%Q)))
  \/ (r = apology /\ ~ In (snd (classify input_text)) (map i_tag intents)).
Proof.
  intros Hne. apply is_empty_false in Hne.
  unfold get_chatbot_response. rewrite Hne.
  destruct (classify input_text) as [max_prob predicted]. simpl.
  assert (Hpred : match respond_with_tag intents pick predicted with
                  | Some r0 => r0
                  | None => Return apology
                  end = Return r ->
                  (exists i, In i intents /\ In r (i_responses i)
                             /\ (i_tag i = predicted
                                 \/ (i_tag i = "unknown"
                                     /\ (max_prob < 1 # 2)%Q)))
                  \/ (r = apology /\ ~ In predicted (map i_tag intents))).
  { destruct (respond_with_tag intents pick predicted) as [r0|] eqn:E.
    - intros ->. left.
      destruct (respond_with_tag_In pick predicted r E) as (i & Hi & Ht & Hr).
      exists i. tauto.
    - intros H. injection H as <-. right. split; [reflexivity|].
      now apply (respond_with_tag_none pick). }
  destruct (Qle_bool (1 # 2) max_prob) eqn:Eq; simpl; [exact Hpred|].
  destruct (respond_with_tag intents pick "unknown") as [r0|] eqn:E;
    [|exact Hpred].
  intros ->. left.
  destruct (respond_with_tag_In pick "unknown" r E) as (i & Hi & Ht & Hr).
  exists i. split; [exact Hi|]. split; [exact Hr|]. right. split; [exact Ht|].
  apply Qnot_le_lt. intros Hle. apply Qle_bool_iff in Hle. congruence.
Qed.

(** When every intent of the file has a response the function never raises:
    every message gets an answer. *)
Theorem chatbot_always_answers (pick : nat) (input_text : string) :
  (forall i, In i intents -> i_responses i <> []) ->
  exists r, get_chatbot_response intents classify pick input_text = Return r.
Proof.
  intros Hresp.
  assert (Htag : forall t,
            respond_with_tag intents pick t = None
            \/ exists r, respond_with_tag intents pick t = Some (Return r)).
  { intros t. unfold respond_with_tag.
    destruct (find _ intents) as [i|] eqn:E; [right | now left].
    apply find_some in E as [Hi _].
    destruct (choice_nonempty pick (i_responses i) (Hresp i Hi)) as [r Hr].
    exists r. now rewrite Hr. }
  unfold get_chatbot_response.
  destruct (Str.is_empty input_text);
    [apply choice_nonempty; discriminate|].
  destruct (classify input_text) as [max_prob predicted]. simpl.
  assert (Hpred : exists r,
            match respond_with_tag intents pick predicted with
            | Some r0 => r0
            | None => Return apology
            end = Return r).
  { destruct (Htag predicted) as [-> | [r ->]]; eauto. }
  destruct (negb (Qle_bool (1 # 2) max_prob)); [|exact Hpred].
  destruct (Htag "unknown") as [-> | [r ->]]; eauto.
Qed.

End ChatbotProperties.

(** The confidence threshold does something only when the file has an intent
    tagged [unknown]: without one, the answer depends on the predicted tag
    alone, and a prediction of low confidence is answered like a sure one. *)
Theorem chatbot_threshold_needs_unknown (intents : list intent)
    (classify1 classify2 : string -> Q * string) (pick : nat)
    (input_text : string) :
  ~ In "unknown" (map i_tag intents) ->
  snd (classify1 input_text) = snd (classify2 input_text) ->
  get_chatbot_response intents classify1 pick input_text
  = get_chatbot_response intents classify2 pick input_text.
Proof.
  intros Hno Hsame. unfold get_chatbot_response.
  destruct (Str.is_empty input_text); [reflexivity|].
  destruct (classify1 input_text) as [p1 t1], (classify2 input_text) as [p2 t2].
  simpl in Hsame. subst t2. simpl.
  apply (respond_with_tag_none intents pick) in Hno. rewrite Hno.
  now destruct (negb (Qle_bool (1 # 2) p1)), (negb (Qle_bool (1 # 2) p2)).
Qed.

(** ** The further properties on concrete runs *)

Example page_scenario_a3 :
  PageScenario.a3
  = mk_app
      (mk_db [mk_user 1 "a@x.com" "spw1" None "2024-01-01T10:00:00"] 1
             [mk_doc 1 1 (Some "pasted_text.txt") (Some "text/plain") "hello"
                "2024-01-02T10:00:00"] 1)
      (Some (mk_session 1 "a@x.com")).
Proof. reflexivity. Qed.

Lemma page_scenario_a3_reachable :
  page_reachable Model.hashpw Model.checkpw PageScenario.decode
    PageScenario.DocxDocument PageScenario.PdfReader PageScenario.a3.
Proof.
  unfold PageScenario.a3, PageScenario.a2, PageScenario.a1, PageScenario.a0,
    PageScenario.handle.
  repeat apply page_step. apply page_init.
Qed.

(** The token of the scenario is redeemed for [pw2]: the hash changed, and
    the call is the reset with the stored token. *)
Lemma password_hash_changes_only_by_reset_witness :
  exists e0 t p salt,
    ResetPassword "a@x.com" Scenario.token1 "pw2" "s2"
    = ResetPassword e0 t p salt
    /\ normalize e0 = "a@x.com"
    /\ Some Scenario.token1 = Some t /\ "spw2" = Model.hashpw p salt.
Proof.
  apply (password_hash_changes_only_by_reset Model.hashpw
           (ResetPassword "a@x.com" Scenario.token1 "pw2" "s2") Scenario.db2
           "a@x.com"
           (mk_user 1 "a@x.com" "spw1" (Some Scenario.token1)
              "2024-01-01T10:00:00")
           (mk_user 1 "a@x.com" "spw2" None "2024-01-01T10:00:00")
           eq_refl eq_refl).
  discriminate.
Defined.

(** Signing in with [" A@X.com "] returns [a@x.com], which signs in too. *)
Lemma verify_user_returns_stored_email_witness :
  verify_user Model.checkpw Scenario.db1 " A@X.com " "pw1"
  = Some (mk_session 1 "a@x.com")
  /\ verify_user Model.checkpw Scenario.db1 "a@x.com" "pw1"
     = Some (mk_session 1 "a@x.com").
Proof.
  split; [reflexivity|].
  apply (verify_user_returns_stored_email Model.checkpw Scenario.db1
           " A@X.com " "pw1" (mk_session 1 "a@x.com") eq_refl).
Defined.

Lemma stored_user_found_by_email_witness :
  reachable Model.hashpw Scenario.db2
  /\ select_user Scenario.db2 (normalize "a@x.com")
     = Some (mk_user 1 "a@x.com" "spw1" (Some Scenario.token1)
               "2024-01-01T10:00:00").
Proof.
  split; [exact scenario_db2_reachable|].
  apply (stored_user_found_by_email Model.hashpw Scenario.db2
           (mk_user 1 "a@x.com" "spw1" (Some Scenario.token1)
              "2024-01-01T10:00:00") scenario_db2_reachable).
  now left.
Defined.

(** Document 3 of the scenario is deleted and another one is saved: the new
    one gets id 4, and the document with id 1 is still the first one. *)
Lemma document_id_never_reused_witness :
  map d_id
    (documents
       (run_all Model.hashpw
          [DeleteDocument 3 1;
           SaveDocument 1 "fourth" None None "2024-01-03T10:00:00"]
          Scenario.db3))
  = [1; 2; 4]
  /\ mk_doc 1 1 (Some "a.txt") (Some "text/plain") "first"
       "2024-01-02T10:00:00"
     = mk_doc 1 1 (Some "a.txt") (Some "text/plain") "first"
         "2024-01-02T10:00:00".
Proof.
  split; [reflexivity|].
  apply (document_id_never_reused Model.hashpw Scenario.db3 _
           [DeleteDocument 3 1;
            SaveDocument 1 "fourth" None None "2024-01-03T10:00:00"] _
           scenario_db3_reachable);
    [now left | now left | reflexivity].
Defined.

Lemma save_then_delete_witness :
  reachable Model.hashpw Scenario.db3
  /\ documents
       (delete_document
          (save_document Scenario.db3 1 "fourth" None None
             "2024-01-03T10:00:00") 4 1)
     = documents Scenario.db3.
Proof.
  split; [exact scenario_db3_reachable|].
  apply (save_then_delete Model.hashpw Scenario.db3 1 "fourth" None None
           "2024-01-03T10:00:00" scenario_db3_reachable).
Defined.

Lemma session_user_is_stored_witness :
  app_user PageScenario.a3 = Some (mk_session 1 "a@x.com")
  /\ exists u, In u (users (app_db PageScenario.a3))
               /\ u_id u = 1 /\ u_email u = "a@x.com".
Proof.
  split; [reflexivity|].
  apply (session_user_is_stored Model.hashpw Model.checkpw PageScenario.decode
           PageScenario.DocxDocument PageScenario.PdfReader PageScenario.a3
           (mk_session 1 "a@x.com") page_scenario_a3_reachable eq_refl).
Defined.

Lemma page_documents_well_formed_witness :
  document_well_formed
    (mk_doc 1 1 (Some "pasted_text.txt") (Some "text/plain") "hello"
       "2024-01-02T10:00:00")
  /\ exists u, In u (users (app_db PageScenario.a3)) /\ u_id u = 1.
Proof.
  apply (page_documents_well_formed Model.hashpw Model.checkpw
           PageScenario.decode PageScenario.DocxDocument PageScenario.PdfReader
           PageScenario.a3
           (mk_doc 1 1 (Some "pasted_text.txt") (Some "text/plain") "hello"
              "2024-01-02T10:00:00") page_scenario_a3_reachable).
  now left.
Defined.

(** Text is pasted and a PDF is uploaded: the pasted text is stored, trimmed,
    under the name and the type of the PDF. *)
Lemma page_save_pasted_text_wins_witness :
  fst (PageScenario.handle
         (SaveDocumentClick "  notes  " (Some PageScenario.report)
            "2024-01-04T10:00:00") PageScenario.a3)
  = mk_app
      (save_document (app_db PageScenario.a3) 1 "notes" (Some "Report.PDF")
         (Some "application/pdf") "2024-01-04T10:00:00")
      (Some (mk_session 1 "a@x.com")).
Proof.
  apply (page_save_pasted_text_wins Model.hashpw Model.checkpw
           PageScenario.decode PageScenario.DocxDocument PageScenario.PdfReader
           PageScenario.a3 (mk_session 1 "a@x.com") "  notes  "
           (Some PageScenario.report) "2024-01-04T10:00:00" eq_refl).
  discriminate.
Defined.

Lemma read_text_from_upload_pdf_witness :
  read_text_from_upload PageScenario.decode PageScenario.DocxDocument
    PageScenario.PdfReader PageScenario.report
  = Return (join_lines ["page one"; ""; ""], "Report.PDF", "application/pdf").
Proof.
  apply (read_text_from_upload_pdf Model.hashpw Model.checkpw
           PageScenario.decode PageScenario.DocxDocument PageScenario.PdfReader
           PageScenario.report PageScenario.reader _ eq_refl eq_refl eq_refl).
Defined.

Lemma chatbot_answer_provenance_witness :
  get_chatbot_response PageScenario.intents PageScenario.sure_greeting 1 "hi"
  = Return "Hi there"
  /\ ((exists i, In i PageScenario.intents /\ In "Hi there" (i_responses i)
                 /\ (i_tag i = "greeting"
                     \/ (i_tag i = "unknown" /\ (3 # 4 < 1 # 2)%Q)))
      \/ ("Hi there" = apology
          /\ ~ In "greeting" (map i_tag PageScenario.intents))).
Proof.
  split; [reflexivity|].
  apply (chatbot_answer_provenance PageScenario.intents
           PageScenario.sure_greeting 1 "hi" "Hi there");
    [discriminate | reflexivity].
Defined.

Lemma chatbot_always_answers_witness :
  exists r,
    get_chatbot_response PageScenario.intents PageScenario.unsure_bye 5
      "see you" = Return r.
Proof.
  apply (chatbot_always_answers PageScenario.intents PageScenario.unsure_bye 5
           "see you").
  intros i [<- | [<- | [<- | []]]]; discriminate.
Defined.

(** Without the [unknown] intent a guess of one quarter and a guess of three
    quarters for [bye] are answered alike. *)
Lemma chatbot_threshold_needs_unknown_witness :
  get_chatbot_response PageScenario.intents_without_unknown
    PageScenario.unsure_bye 0 "see you"
  = get_chatbot_response PageScenario.intents_without_unknown
      PageScenario.sure_bye 0 "see you".
Proof.
  apply (chatbot_threshold_needs_unknown PageScenario.intents_without_unknown
           PageScenario.unsure_bye PageScenario.sure_bye 0 "see you");
    [|reflexivity].
  intros [H | [H | []]]; discriminate.
Defined.

(** ** The hashing helpers when bcrypt may raise *)

Section RaisingFacts.

Variable hashpw : string -> string -> outcome string.

Lemma raising_add_user_cases (db : DB) (e p salt now : string)
    (fault : option string) :
  Raising.add_user hashpw db e p salt now fault =
  if Str.is_empty e || Str.is_empty p then (db, Returned InvalidInput)
  else
    match hashpw p salt with
    | Raised => (db, Raised)
    | Returned h =>
        match fault with
        | Some msg => (db, Returned (false, "Registration failed: " ++ msg))
        | None =>
            if existsb (fun u => u_email u =? normalize e)%string (users db)
            then (db, Returned DuplicateEmail)
            else (mk_db (users db
                         ++ [mk_user (users_seq db + 1) (normalize e) h None
                               now])
                        (users_seq db + 1) (documents db) (documents_seq db),
                  Returned (true, "Registration successful."))
        end
    end.
Proof.
  unfold Raising.add_user, insert_user.
  destruct (Str.is_empty e || Str.is_empty p); [reflexivity|].
  destruct (hashpw p salt) as [h|]; [|reflexivity].
  destruct fault; [reflexivity|].
  destruct (existsb _ (users db)); reflexivity.
Qed.

(** Where [hashpw] returns and the database runs the statements,
    [Raising.add_user] is [add_user]. *)
Lemma raising_add_user_returns (db : DB) (e p salt now h : string) :
  hashpw p salt = Returned h ->
  Raising.add_user hashpw db e p salt now None
  = (fst (add_user (hashpw_total hashpw) db e p salt now),
     Returned (snd (add_user (hashpw_total hashpw) db e p salt now))).
Proof.
  intros Hh. rewrite raising_add_user_cases, add_user_cases.
  unfold hashpw_total. rewrite Hh.
  destruct (Str.is_empty e || Str.is_empty p); [reflexivity|].
  destruct (existsb _ (users db)); reflexivity.
Qed.

(** Where [hashpw] returns, [Raising.reset_password] is [reset_password]. *)
Lemma raising_reset_password_returns (db : DB) (e t p salt h : string) :
  hashpw p salt = Returned h ->
  Raising.reset_password hashpw db e t p salt
  = (fst (reset_password (hashpw_total hashpw) db e t p salt),
     Returned (snd (reset_password (hashpw_total hashpw) db e t p salt))).
Proof.
  intros Hh. unfold Raising.reset_password, reset_password, hashpw_total.
  rewrite Hh.
  destruct (select_user db (normalize e)) as [row|]; [|reflexivity].
  destruct (token_differs (u_reset_token row) t); reflexivity.
Qed.

Lemma raising_reset_password_mismatch (db : DB) (e t p salt : string) :
  (forall u, select_user db (normalize e) = Some u ->
     token_differs (u_reset_token u) t = true) ->
  Raising.reset_password hashpw db e t p salt = (db, Returned InvalidToken).
Proof.
  intros H. unfold Raising.reset_password.
  destruct (select_user db (normalize e)) as [row|]; [|reflexivity].
  now rewrite (H row eq_refl).
Qed.

Lemma raising_reset_password_raises (db : DB) (e t p salt : string)
    (u : user_row) :
  select_user db (normalize e) = Some u -> u_reset_token u = Some t ->
  hashpw p salt = Raised ->
  Raising.reset_password hashpw db e t p salt = (db, Raised).
Proof.
  intros Hu Ht Hh. unfold Raising.reset_password.
  now rewrite Hu, Ht, token_differs_same, Hh.
Qed.

(** Every step either changes nothing or is a step of the helpers that do
    not raise, so what holds in their reachable states holds here. *)
Lemma raising_reachable_total (db : DB) :
  Raising.reachable hashpw db -> reachable (hashpw_total hashpw) db.
Proof.
  induction 1 as [|db e p salt now fault Hr IH|db e t Hr IH
                  |db e t p salt Hr IH|db uid c f m now Hr IH
                  |db doc_id uid Hr IH].
  - apply reachable_init.
  - destruct (Str.is_empty e || Str.is_empty p) eqn:E.
    + rewrite raising_add_user_cases, E. exact IH.
    + destruct (hashpw p salt) as [h|] eqn:Hh.
      * destruct fault as [msg|].
        -- rewrite raising_add_user_cases, E, Hh. exact IH.
        -- rewrite (raising_add_user_returns db e p salt now h Hh).
           apply (reachable_run (hashpw_total hashpw) (AddUser e p salt now)).
           exact IH.
      * rewrite raising_add_user_cases, E, Hh. exact IH.
  - apply (reachable_run (hashpw_total hashpw) (CreateResetToken e t)).
    exact IH.
  - destruct (hashpw p salt) as [h|] eqn:Hh.
    + rewrite (raising_reset_password_returns db e t p salt h Hh).
      apply (reachable_run (hashpw_total hashpw) (ResetPassword e t p salt)).
      exact IH.
    + unfold Raising.reset_password. rewrite Hh.
      destruct (select_user db (normalize e)) as [row|]; [|exact IH].
      destruct (token_differs (u_reset_token row) t); exact IH.
  - apply (reachable_run (hashpw_total hashpw) (SaveDocument uid c f m now)).
    exact IH.
  - apply (reachable_run (hashpw_total hashpw) (DeleteDocument doc_id uid)).
    exact IH.
Qed.

End RaisingFacts.

Section RaisingCredentials.

Variable hashpw : string -> string -> outcome string.
Variable checkpw : string -> string -> outcome bool.

(** bcrypt's contract, for the hashes [hashpw] returns: the password a hash
    was made from checks against it, and no other password does. *)
Hypothesis checkpw_accepts :
  forall password salt h,
    hashpw password salt = Returned h -> checkpw password h = Returned true.
Hypothesis checkpw_rejects :
  forall password salt h other,
    hashpw password salt = Returned h -> other <> password ->
    checkpw other h <> Returned true.

(** C1, as the code has it.  An email has a row with a pending token, and
    [reset_password] is called with that token.  When [bcrypt.hashpw] raises
    on the new password the call raises, and the stored state, the pending
    token included, is as before.  When it returns, the one [UPDATE] stores
    the hash of the new password and sets the token to NULL in the row of the
    email and leaves the rows of other emails alone; from then on every
    [reset_password] for the email returns [InvalidToken] and changes
    nothing, whatever token and password it brings; [verify_user] accepts
    the new password and turns down every other one, the old one with
    them. *)
Theorem reset_password_single_use (db : DB) (e t new_password salt : string)
    (u : user_row) :
  select_user db (normalize e) = Some u ->
  u_reset_token u = Some t ->
  (hashpw new_password salt = Raised ->
   Raising.reset_password hashpw db e t new_password salt = (db, Raised))
  /\ (forall h, hashpw new_password salt = Returned h ->
        let db' := fst (Raising.reset_password hashpw db e t new_password salt) in
        snd (Raising.reset_password hashpw db e t new_password salt)
        = Returned (true, "Password has been reset successfully.")
        /\ select_user db' (normalize e)
           = Some (mk_user (u_id u) (u_email u) h None (u_created_at u))
        /\ (forall e', e' <> normalize e ->
              select_user db' e' = select_user db e')
        /\ (forall t' p' salt',
              Raising.reset_password hashpw db' e t' p' salt'
              = (db', Returned InvalidToken))
        /\ verify_user checkpw db' e new_password
           = Some (mk_session (u_id u) (u_email u))
        /\ (forall old_password, old_password <> new_password ->
              verify_user checkpw db' e old_password = None)).
Proof.
  intros Hu Ht. split.
  - now apply raising_reset_password_raises with (u := u).
  - intros h Hh db'. subst db'.
    rewrite (raising_reset_password_returns hashpw db e t new_password salt h Hh).
    rewrite (reset_password_match (hashpw_total hashpw) db e t new_password
               salt u Hu Ht).
    cbn [fst snd].
    assert (Hh' : hashpw_total hashpw new_password salt = h)
      by (unfold hashpw_total; now rewrite Hh).
    rewrite Hh'.
    assert (Hsel : select_user
              (with_users db
                 (fst (update_users (normalize e)
                    (set_password_hash_and_clear_token h) (users db))))
              (normalize e)
            = Some (set_password_hash_and_clear_token h u))
      by (now apply select_user_updated).
    split; [reflexivity|]. split; [exact Hsel|].
    split; [|split; [|split]].
    + intros e' Hne. now apply select_user_not_updated.
    + intros t' p' salt'. apply raising_reset_password_mismatch.
      intros u' Hu'. rewrite Hsel in Hu'. injection Hu' as <-. reflexivity.
    + unfold verify_user. rewrite Hsel. simpl.
      now rewrite (checkpw_accepts new_password salt h Hh).
    + intros old Hold. unfold verify_user. rewrite Hsel. simpl.
      pose proof (checkpw_rejects new_password salt h old Hh Hold) as Hrej.
      destruct (checkpw old h) as [[|]|];
        [congruence | reflexivity | reflexivity].
Qed.

(** What a call of [reset_password] does, by its three ways out.  It
    succeeds exactly when the email has a row whose stored token is the
    string passed in and [bcrypt.hashpw] returns for the new password; it
    raises exactly when the token matches and [hashpw] raises; it returns
    the [InvalidToken] message exactly when there is no row or the stored
    token is another string or NULL, which matches no string, the empty one
    included.  Whenever it does not succeed the stored state is the one it
    was given. *)
Theorem reset_password_succeeds_iff (db : DB) (e t p salt : string) :
  (snd (Raising.reset_password hashpw db e t p salt)
   = Returned (true, "Password has been reset successfully.")
   <-> (exists u, select_user db (normalize e) = Some u
                  /\ u_reset_token u = Some t)
       /\ exists h, hashpw p salt = Returned h)
  /\ (snd (Raising.reset_password hashpw db e t p salt) = Raised
      <-> (exists u, select_user db (normalize e) = Some u
                     /\ u_reset_token u = Some t)
          /\ hashpw p salt = Raised)
  /\ (snd (Raising.reset_password hashpw db e t p salt) = Returned InvalidToken
      <-> ~ exists u, select_user db (normalize e) = Some u
                      /\ u_reset_token u = Some t)
  /\ (snd (Raising.reset_password hashpw db e t p salt)
      <> Returned (true, "Password has been reset successfully.") ->
      fst (Raising.reset_password hashpw db e t p salt) = db)
  /\ (forall u, select_user db (normalize e) = Some u ->
        u_reset_token u = None ->
        Raising.reset_password hashpw db e t p salt
        = (db, Returned InvalidToken)).
Proof.
  set (M := exists u, select_user db (normalize e) = Some u
                      /\ u_reset_token u = Some t).
  assert (Hcases :
    (~ M /\ Raising.reset_password hashpw db e t p salt
            = (db, Returned InvalidToken))
    \/ (M /\ hashpw p salt = Raised
         /\ Raising.reset_password hashpw db e t p salt = (db, Raised))
    \/ (M /\ (exists h, hashpw p salt = Returned h)
         /\ snd (Raising.reset_password hashpw db e t p salt)
            = Returned (true, "Password has been reset successfully."))).
  { subst M. destruct (select_user db (normalize e)) as [u|] eqn:Hu.
    - destruct (token_differs (u_reset_token u) t) eqn:Ht.
      + left. split.
        * intros (u' & Hu' & Ht'). injection Hu' as <-.
          rewrite Ht', token_differs_same in Ht. discriminate.
        * apply raising_reset_password_mismatch. intros u' Hu'.
          rewrite Hu in Hu'. now injection Hu' as <-.
      + apply token_differs_false in Ht. right.
        destruct (hashpw p salt) as [h|] eqn:Hh.
        * right. split; [now exists u|]. split; [now exists h|].
          rewrite (raising_reset_password_returns hashpw db e t p salt h Hh).
          now rewrite (reset_password_match (hashpw_total hashpw) db e t p
                         salt u Hu Ht).
        * left. split; [now exists u|]. split; [reflexivity|].
          now apply raising_reset_password_raises with (u := u).
    - left. split; [intros (u' & Hu' & _); discriminate|].
      apply raising_reset_password_mismatch. intros u' Hu'.
      rewrite Hu in Hu'. discriminate. }
  assert (Hnull : forall u, select_user db (normalize e) = Some u ->
                    u_reset_token u = None -> ~ M).
  { intros u Hu Hnone (u' & Hu' & Ht'). congruence. }
  unfold InvalidToken in *.
  destruct Hcases as [[Hno ->] | [(Hyes & Hraise & ->) | (Hyes & [h Hh] & Hs)]];
    cbn [fst snd].
  - split; [split; [discriminate | tauto]|].
    split; [split; [discriminate | tauto]|].
    split; [split; [intros _; exact Hno | reflexivity]|].
    split; [reflexivity|]. reflexivity.
  - split; [split; [discriminate | intros [_ [h Hh]]; congruence]|].
    split; [split; [now split | reflexivity]|].
    split; [split; [discriminate | tauto]|].
    split; [reflexivity|].
    intros u Hu Hnone. now destruct (Hnull u Hu Hnone).
  - rewrite Hs.
    split; [split; [intros _; split; [exact Hyes | now exists h]
                   | reflexivity]|].
    split; [split; [discriminate | intros [_ Hr]; congruence]|].
    split; [split; [discriminate | tauto]|].
    split; [intros Hne; now destruct Hne|].
    intros u Hu Hnone. now destruct (Hnull u Hu Hnone).
Qed.

End RaisingCredentials.

Section RaisingRegistration.

Variable hashpw : string -> string -> outcome string.

(** C3, as the code has it.  In every reachable state two rows of [users]
    whose emails normalize to the same string are one row.  [add_user] with
    an email that normalizes like the email of a stored row, whatever its
    case and surrounding whitespace, never succeeds and leaves the stored
    state as it was.  With an email and a password that are not empty as
    typed, its answer is [DuplicateEmail] when [bcrypt.hashpw] returns for
    the password and the database runs the [INSERT]; when [hashpw] raises,
    the call raises before the database is asked; and when the database
    fails otherwise the answer is the [Registration failed] message. *)
Theorem duplicate_email_rejected (db : DB) :
  Raising.reachable hashpw db ->
  (forall u1 u2, In u1 (users db) -> In u2 (users db) ->
     normalize (u_email u1) = normalize (u_email u2) -> u1 = u2)
  /\ (forall u e p salt now fault, In u (users db) ->
        normalize e = normalize (u_email u) ->
        fst (Raising.add_user hashpw db e p salt now fault) = db
        /\ (forall msg,
              snd (Raising.add_user hashpw db e p salt now fault)
              <> Returned (true, msg))
        /\ (e <> "" -> p <> "" ->
            (forall h, hashpw p salt = Returned h -> fault = None ->
               snd (Raising.add_user hashpw db e p salt now fault)
               = Returned DuplicateEmail)
            /\ (hashpw p salt = Raised ->
                snd (Raising.add_user hashpw db e p salt now fault) = Raised)
            /\ (forall h msg, hashpw p salt = Returned h -> fault = Some msg ->
                  snd (Raising.add_user hashpw db e p salt now fault)
                  = Returned (false, "Registration failed: " ++ msg)))).
Proof.
  intros Hr. apply raising_reachable_total in Hr.
  destruct (reachable_ok (hashpw_total hashpw) db Hr) as [[Hnd Hnorm _ _] _].
  assert (Hstored : forall u, In u (users db) -> normalize (u_email u) = u_email u).
  { intros u Hu. rewrite Forall_forall in Hnorm. apply Hnorm. now apply in_map. }
  split.
  - intros u1 u2 H1 H2 He. rewrite !Hstored in He by assumption.
    now apply (NoDup_map_inj u_email (users db)).
  - intros u e p salt now fault Hu He. rewrite Hstored in He by exact Hu.
    assert (Hex : existsb (fun x => u_email x =? normalize e)%string (users db)
                  = true).
    { apply existsb_email_in. rewrite He. now apply in_map. }
    rewrite raising_add_user_cases, Hex.
    destruct (Str.is_empty e) eqn:Ee.
    { simpl. split; [reflexivity|]. split; [discriminate|].
      intros Hne. apply is_empty_false in Hne. congruence. }
    destruct (Str.is_empty p) eqn:Ep.
    { simpl. split; [reflexivity|]. split; [discriminate|].
      intros _ Hne. apply is_empty_false in Hne. congruence. }
    simpl. destruct (hashpw p salt) as [h|].
    + destruct fault as [msg|]; simpl.
      * split; [reflexivity|]. split; [discriminate|]. intros _ _.
        split; [discriminate|]. split; [discriminate|].
        intros h' msg' _ H. now injection H as <-.
      * split; [reflexivity|]. split; [discriminate|]. intros _ _.
        split; [reflexivity|]. split; discriminate.
    + simpl. split; [reflexivity|]. split; [discriminate|]. intros _ _.
      split; [discriminate|]. split; [reflexivity | discriminate].
Qed.

End RaisingRegistration.

(** ** The three theorems on concrete runs *)

Lemma bcrypt5_accepts (password salt h : string) :
  Bcrypt5.hashpw password salt = Returned h ->
  Model.checkpw password h = Returned true.
Proof.
  unfold Bcrypt5.hashpw.
  destruct (72 <? Bcrypt5.utf8_length password)%nat; [discriminate|].
  intros H. injection H as <-. apply model_checkpw_hashpw.
Qed.

Lemma bcrypt5_rejects (password salt h other : string) :
  Bcrypt5.hashpw password salt = Returned h -> other <> password ->
  Model.checkpw other h <> Returned true.
Proof.
  unfold Bcrypt5.hashpw.
  destruct (72 <? Bcrypt5.utf8_length password)%nat; [discriminate|].
  intros H Hne. injection H as <-. unfold Model.hashpw, Model.checkpw.
  assert (E : (password =? other)%string = false)
    by (apply String.eqb_neq; congruence).
  destruct salt; rewrite E; discriminate.
Qed.

Lemma scenario_db2_reachable_raising :
  Raising.reachable Bcrypt5.hashpw Scenario.db2.
Proof.
  apply (Raising.reach_create_reset_token Bcrypt5.hashpw
           (fst (Raising.add_user Bcrypt5.hashpw (init_db None) "a@x.com"
                   "pw1" "s1" "2024-01-01T10:00:00" None))
           "a@x.com" Scenario.token1).
  apply Raising.reach_add_user. apply Raising.reach_init.
Qed.

(** C1 on the scenario: the token is redeemed for [pw2]; it is spent, [pw2]
    signs in and [pw1] no longer does. *)
Lemma reset_password_single_use_witness :
  let db' :=
    fst (Raising.reset_password Bcrypt5.hashpw Scenario.db2 " A@X.com "
           Scenario.token1 "pw2" "s2") in
  select_user Scenario.db2 (normalize " A@X.com ")
  = Some (mk_user 1 "a@x.com" "spw1" (Some Scenario.token1)
            "2024-01-01T10:00:00")
  /\ select_user db' "a@x.com"
     = Some (mk_user 1 "a@x.com" "spw2" None "2024-01-01T10:00:00")
  /\ Raising.reset_password Bcrypt5.hashpw db' " A@X.com " Scenario.token1
       "pw3" "s3"
     = (db', Returned InvalidToken)
  /\ verify_user Model.checkpw db' " A@X.com " "pw2"
     = Some (mk_session 1 "a@x.com")
  /\ verify_user Model.checkpw db' " A@X.com " "pw1" = None.
Proof.
  cbv zeta.
  destruct (reset_password_single_use Bcrypt5.hashpw Model.checkpw
              bcrypt5_accepts bcrypt5_rejects Scenario.db2 " A@X.com "
              Scenario.token1 "pw2" "s2" _ eq_refl eq_refl) as [_ H].
  destruct (H "spw2" eq_refl) as (_ & H2 & _ & H4 & H5 & H6).
  split; [reflexivity|]. split; [exact H2|]. split; [apply H4|].
  split; [exact H5|]. apply H6. discriminate.
Defined.

(** C1 fails on a new password of 73 bytes: [a@x.com] holds a pending token
    and redeems it with that password; [hashpw] raises, so the call raises,
    the old hash and the token are still stored, and the same token is
    redeemed afterwards. *)
Lemma reset_password_long_password_counterexample :
  String.length Bcrypt5.long_password = 73%nat
  /\ Raising.reset_password Bcrypt5.hashpw Scenario.db2 "a@x.com"
       Scenario.token1 Bcrypt5.long_password "s2"
     = (Scenario.db2, Raised)
  /\ select_user Scenario.db2 "a@x.com"
     = Some (mk_user 1 "a@x.com" "spw1" (Some Scenario.token1)
               "2024-01-01T10:00:00")
  /\ snd (Raising.reset_password Bcrypt5.hashpw Scenario.db2 "a@x.com"
            Scenario.token1 "pw2" "s2")
     = Returned (true, "Password has been reset successfully.").
Proof. repeat split. Qed.

(** C3 on the scenario: the registered email again, in capitals and with
    spaces around. *)
Lemma duplicate_email_rejected_witness :
  Raising.reachable Bcrypt5.hashpw Scenario.db2
  /\ normalize "  A@X.COM " = "a@x.com"
  /\ Raising.add_user Bcrypt5.hashpw Scenario.db2 "  A@X.COM " "other" "s9"
       "2024-01-05T10:00:00" None
     = (Scenario.db2, Returned DuplicateEmail).
Proof.
  split; [exact scenario_db2_reachable_raising|]. split; [reflexivity|].
  destruct (duplicate_email_rejected Bcrypt5.hashpw Scenario.db2
              scenario_db2_reachable_raising) as [_ H].
  destruct (H (mk_user 1 "a@x.com" "spw1" (Some Scenario.token1)
                 "2024-01-01T10:00:00") "  A@X.COM " "other" "s9"
              "2024-01-05T10:00:00" None) as (Hdb & _ & Hres);
    [now left | reflexivity |].
  destruct Hres as (Hdup & _ & _); [discriminate | discriminate |].
  rewrite (surjective_pairing (Raising.add_user _ _ _ _ _ _ _)).
  rewrite Hdb. now rewrite (Hdup "sother" eq_refl eq_refl).
Defined.

(** C3 fails on a password of 73 bytes: [a@x.com] is registered, and
    registering it again with that password raises on line 78, before the
    [INSERT] that would find the duplicate. *)
Lemma duplicate_email_long_password_counterexample :
  select_user Scenario.db2 (normalize "a@x.com")
  = Some (mk_user 1 "a@x.com" "spw1" (Some Scenario.token1)
            "2024-01-01T10:00:00")
  /\ Raising.add_user Bcrypt5.hashpw Scenario.db2 "a@x.com"
       Bcrypt5.long_password "s9" "2024-01-05T10:00:00" None
     = (Scenario.db2, Raised).
Proof. split; reflexivity. Qed.
